(** * Invoice lifecycle of the freelancer invoice generator

    A shallow embedding of the invoice part of [server/routes.ts]
    (the Express handlers under [/api/invoices] and the [MemStorage]
    class backing them) and of [shared/schema.ts] ([invoiceFormSchema],
    [InvoiceStatus]), extended to the client, user, dashboard and
    payment-intent handlers and storage methods of the same file,
    [clientFormSchema], and the CSV export of
    [client/src/lib/csv-generator.ts].

    JavaScript numbers are IEEE-754 binary64 values and are modelled by
    Rocq's primitive [float]; the arithmetic of the handlers is the
    primitive [+], [*] and [/].  Numbers written to storage with
    [toString()] are kept as the float they were produced from, and the
    decimal string that [Number::toString] prints for them is given by
    [js_number_to_decimal] below.  Map keys and the integer counters of
    [MemStorage] are integers ([Z]); they stay in the safe-integer range
    of JavaScript numbers, where [++] is exact. *)

From Stdlib Require Import ZArith QArith Bool List String Floats Lia.
Import ListNotations.

Open Scope Z_scope.

(* ------------------------------------------------------------------ *)
(** ** JavaScript numbers *)

Module JsNumber.

Definition Qltb (p q : Q) : bool := negb (Qle_bool q p).

(** The exact rational value of a finite double. *)
Definition sf_value (f : spec_float) : Q :=
  match f with
  | S754_finite s m e =>
      let v := if 0 <=? e then inject_Z (Zpos m * 2 ^ e)
               else Zpos m # Z.to_pos (2 ^ (- e)) in
      if s then Qopp v else v
  | _ => 0%Q
  end.

Definition value (x : float) : Q := sf_value (Prim2SF x).

Definition is_finite_num (x : float) : bool :=
  negb (PrimFloat.is_nan x) && negb (PrimFloat.is_infinity x).

(** Whether the binary significand of [x] is even (round-half-even
    sends a midpoint to such a neighbour). *)
Definition mantissa_even (x : float) : bool :=
  match Prim2SF x with
  | S754_finite _ m _ => Z.even (Zpos m)
  | _ => true
  end.

(** [q] rounds to the positive finite double [x]: it lies strictly between
    the midpoints to the neighbours of [x], or on one of them when the
    significand of [x] is even. *)
Definition rounds_to (x : float) (q : Q) : bool :=
  let v := value x in
  let lo := value (next_down x) in
  let hi := if PrimFloat.is_infinity (next_up x) then (v + (v - lo))%Q
            else value (next_up x) in
  let mlo := ((lo + v) / 2)%Q in
  let mhi := ((v + hi) / 2)%Q in
  (Qltb mlo q && Qltb q mhi)
  || (mantissa_even x && (Qeq_bool q mlo || Qeq_bool q mhi)).

(** A decimal [(s, e)] denotes [s * 10^e]. *)
Definition decimal_value (d : Z * Z) : Q :=
  (inject_Z (fst d) * Qpower (10 # 1) (snd d))%Q.

(** The decimal exponent [n] with [10^(n-1) <= v < 10^n]. *)
Fixpoint find_exp (fuel : nat) (v : Q) (n : Z) : Z :=
  match fuel with
  | O => n
  | S f => if Qltb v (Qpower (10 # 1) n) then n else find_exp f v (n + 1)
  end.

Definition Qfloor (q : Q) : Z := Z.div (Qnum q) (Zpos (Qden q)).
Definition Qceil (q : Q) : Z := - Qfloor (- q).

(** The [k]-significant-digit decimals next to [v] ([floor] and [ceil] of
    the scaled value), keeping those that round to [x] and choosing the one
    closest to [v], the even one on a tie. *)
Definition candidate (x : float) (v : Q) (n0 : Z) (k : Z) : option (Z * Z) :=
  let e := n0 - k in
  let t := (v * Qpower (10 # 1) (- e))%Q in
  let f := Qfloor t in
  let c := Qceil t in
  let okf := rounds_to x (decimal_value (f, e)) in
  let okc := rounds_to x (decimal_value (c, e)) in
  match okf, okc with
  | true, true =>
      let df := (v - decimal_value (f, e))%Q in
      let dc := (decimal_value (c, e) - v)%Q in
      if Qltb df dc then Some (f, e)
      else if Qltb dc df then Some (c, e)
      else if Z.even f then Some (f, e) else Some (c, e)
  | true, false => Some (f, e)
  | false, true => Some (c, e)
  | false, false => None
  end.

Fixpoint shortest (fuel : nat) (x : float) (v : Q) (n0 : Z) (k : Z)
  : Z * Z :=
  match fuel with
  | O => (Qnum v, 0)
  | S f =>
      match candidate x v n0 k with
      | Some d => d
      | None => shortest f x v n0 (k + 1)
      end
  end.

(** [Number::toString] (ECMAScript, Number::toString with radix 10) prints
    the decimal [s * 10^(n-k)] with the fewest digits [k] that rounds back
    to [x], the closest one to [x] among those.  This is the decimal
    printed, as a (digits, exponent) pair; [NaN] and the infinities are
    not finite and are sent to [(0, 0)]. *)
Definition js_number_to_decimal (x : float) : Z * Z :=
  if negb (is_finite_num x) then (0, 0)
  else if PrimFloat.eqb x 0%float then (0, 0)
  else
    let ax := PrimFloat.abs x in
    let v := value ax in
    let n0 := find_exp 700 v (-330) in
    let '(s, e) := shortest 17 ax v n0 1 in
    if PrimFloat.ltb x 0%float then (- s, e) else (s, e).

(** The number the string [x.toString()] denotes. *)
Definition toString_value (x : float) : Q :=
  decimal_value (js_number_to_decimal x).

(** [Map.prototype.get] with a number key on a map whose keys are
    integers: a double finds the entry of the integer it equals
    ([SameValueZero], so [-0] finds [0]); a non-integral double, [NaN] or
    an infinity finds none. *)
Definition float_key (x : float) : option Z :=
  match Prim2SF x with
  | S754_zero _ => Some 0
  | S754_finite s m e =>
      let a := if 0 <=? e then Some (Zpos m * 2 ^ e)
               else if Zpos m mod 2 ^ (- e) =? 0 then Some (Zpos m / 2 ^ (- e))
               else None in
      match a with
      | Some z => Some (if s then - z else z)
      | None => None
      end
  | _ => None
  end.

End JsNumber.


(* ------------------------------------------------------------------ *)
(** ** JavaScript [Map] with integer keys

    A [Map] iterates in insertion order: [set] on a present key replaces
    the value in place, on a new key appends the entry. *)

Module JsMap.
Section JsMap.
Variable V : Type.

Definition t := list (Z * V).

Fixpoint get (k : Z) (m : t) : option V :=
  match m with
  | [] => None
  | (k', v) :: r => if Z.eqb k k' then Some v else get k r
  end.

Fixpoint set (k : Z) (v : V) (m : t) : t :=
  match m with
  | [] => [(k, v)]
  | (k', v') :: r => if Z.eqb k k' then (k, v) :: r else (k', v') :: set k v r
  end.

Definition delete (k : Z) (m : t) : t :=
  filter (fun p => negb (Z.eqb (fst p) k)) m.

Definition has (k : Z) (m : t) : bool :=
  match get k m with Some _ => true | None => false end.

Definition values (m : t) : list V := map snd m.

End JsMap.
Arguments get {V} k m.
Arguments set {V} k v m.
Arguments delete {V} k m.
Arguments has {V} k m.
Arguments values {V} m.
End JsMap.

(* ------------------------------------------------------------------ *)
(** ** Schema ([shared/schema.ts]) *)

(** [InvoiceStatus]. *)
Definition InvoiceStatus : list string :=
  ["draft"; "pending"; "paid"; "overdue"; "cancelled"]%string.

Definition InvoiceStatus_PENDING : string := "pending".
Definition InvoiceStatus_PAID : string := "paid".

(** A [Date] value: [new Date(s)] on a string, [new Date(y, m, d)], or
    [new Date()] at the clock reading [ms]. *)
Inductive jsdate :=
| DateOfString (s : string)
| DateYMD (y m d : Z)
| DateAt (ms : Z).

Record Client := mkClient {
  cl_id : Z;
  cl_userId : Z;
  cl_name : string;
  cl_email : option string;
  cl_address : option string;
  cl_phone : option string;
  cl_companyName : option string;
  cl_contactPerson : option string;
  cl_createdAt : jsdate }.

(** An [Invoice] row.  The money fields hold the number whose
    [toString()] the handlers store ([subtotal.toString()], ...);
    [inv_clientId] is the [validatedData.clientId] number. *)
Record Invoice := mkInvoice {
  inv_id : Z;
  inv_userId : Z;
  inv_clientId : float;
  inv_invoiceNumber : string;
  inv_status : string;
  inv_issueDate : jsdate;
  inv_dueDate : jsdate;
  inv_paymentTerms : string;
  inv_subtotal : float;
  inv_taxRate : float;
  inv_taxAmount : float;
  inv_total : float;
  inv_notes : string;
  inv_createdAt : jsdate;
  inv_updatedAt : jsdate }.

(** [InsertInvoice]: an invoice without [id] and timestamps. *)
Record InsertInvoice := mkInsertInvoice {
  ii_userId : Z;
  ii_clientId : float;
  ii_invoiceNumber : string;
  ii_status : string;
  ii_issueDate : jsdate;
  ii_dueDate : jsdate;
  ii_paymentTerms : string;
  ii_subtotal : float;
  ii_taxRate : float;
  ii_taxAmount : float;
  ii_total : float;
  ii_notes : string }.

(** The [Partial<InsertInvoice>] the update handler passes to
    [updateInvoice]: the fields it sets. *)
Record InvoicePatch := mkInvoicePatch {
  ip_clientId : float;
  ip_issueDate : jsdate;
  ip_dueDate : jsdate;
  ip_paymentTerms : string;
  ip_notes : string;
  ip_subtotal : float;
  ip_taxRate : float;
  ip_taxAmount : float;
  ip_total : float }.

Record LineItem := mkLineItem {
  li_id : Z;
  li_invoiceId : Z;
  li_description : string;
  li_quantity : float;
  li_rate : float;
  li_amount : float }.

Record InsertLineItem := mkInsertLineItem {
  il_invoiceId : Z;
  il_description : string;
  il_quantity : float;
  il_rate : float;
  il_amount : float }.

(** [ClientFormData]: [clientFormSchema]'s output.  [name] is required;
    each nullable column is absent ([None]), [null] ([Some None]) or a
    string. *)
Record ClientFormData := mkClientFormData {
  cf_name : string;
  cf_email : option (option string);
  cf_address : option (option string);
  cf_phone : option (option string);
  cf_companyName : option (option string);
  cf_contactPerson : option (option string) }.

(** [InsertClient], as stored: an absent and a [null] column both read as
    no value ([None]). *)
Record InsertClient := mkInsertClient {
  ic_userId : Z;
  ic_name : string;
  ic_email : option string;
  ic_address : option string;
  ic_phone : option string;
  ic_companyName : option string;
  ic_contactPerson : option string }.

(** [Partial<InsertLineItem>]: [None] for an absent key. *)
Record LineItemPatch := mkLineItemPatch {
  lp_invoiceId : option Z;
  lp_description : option string;
  lp_quantity : option float;
  lp_rate : option float;
  lp_amount : option float }.

(** [DashboardStats]. *)
Record DashboardStats := mkDashboardStats {
  invoicesIssued : Z;
  pendingPayment : Z;
  paid : Z;
  totalRevenue : float }.

(* ------------------------------------------------------------------ *)
(** ** [MemStorage] *)

(** The storage state (the users map is left out: no handler here reads
    it), and the storage calls made so far, by method name. *)
Record MemStorage := mkStore {
  clients : JsMap.t Client;
  invoices : JsMap.t Invoice;
  lineItems : JsMap.t LineItem;
  currentClientId : Z;
  currentInvoiceId : Z;
  currentLineItemId : Z;
  currentInvoiceNumber : Z }.

Record World := mkWorld {
  store : MemStorage;
  calls : list string }.

(** The handlers run their [await]ed storage calls one after the other:
    a state monad over [World]. *)
Definition M (A : Type) : Type := World -> A * World.

Definition ret {A} (a : A) : M A := fun w => (a, w).
Definition bind {A B} (m : M A) (k : A -> M B) : M B :=
  fun w => let '(a, w') := m w in k a w'.

Notation "x <- m ;; k" := (bind m (fun x => k))
  (at level 61, m at next level, right associativity).
Notation "m ;;; k" := (bind m (fun _ => k))
  (at level 61, right associativity).

Fixpoint mapM {A B} (f : A -> M B) (l : list A) : M (list B) :=
  match l with
  | [] => ret []
  | a :: r => b <- f a ;; bs <- mapM f r ;; ret (b :: bs)
  end.

(** A storage method: log its call, then run on the store. *)
Definition storage_op {A} (name : string) (f : MemStorage -> A * MemStorage)
  : M A :=
  fun w => let '(a, s') := f (store w) in
           (a, mkWorld s' (calls w ++ [name])).

Definition with_clients (s : MemStorage) (m : JsMap.t Client) : MemStorage :=
  mkStore m (invoices s) (lineItems s) (currentClientId s)
    (currentInvoiceId s) (currentLineItemId s) (currentInvoiceNumber s).
Definition with_invoices (s : MemStorage) (m : JsMap.t Invoice) : MemStorage :=
  mkStore (clients s) m (lineItems s) (currentClientId s)
    (currentInvoiceId s) (currentLineItemId s) (currentInvoiceNumber s).
Definition with_lineItems (s : MemStorage) (m : JsMap.t LineItem) : MemStorage :=
  mkStore (clients s) (invoices s) m (currentClientId s)
    (currentInvoiceId s) (currentLineItemId s) (currentInvoiceNumber s).

(** A number argument used as a key: the integer it equals, if any
    ([JsNumber.float_key]); [Some z] for an integer-valued id field. *)
Definition key := option Z.

Definition key_get {V} (k : key) (m : JsMap.t V) : option V :=
  match k with Some z => JsMap.get z m | None => None end.

(** [lineItem.invoiceId === invoiceId]. *)
Definition key_is (k : key) (z : Z) : bool :=
  match k with Some z' => Z.eqb z z' | None => false end.

Module Storage.

Definition getClient (id : key) : M (option Client) :=
  storage_op "getClient" (fun s => (key_get id (clients s), s)).

Definition getInvoice (id : key) : M (option Invoice) :=
  storage_op "getInvoice" (fun s => (key_get id (invoices s), s)).

(** [createInvoice]: fresh id from [currentInvoiceId++], both timestamps
    [new Date()]. *)
Definition createInvoice (now : Z) (d : InsertInvoice) : M Invoice :=
  storage_op "createInvoice" (fun s =>
    let id := currentInvoiceId s in
    let inv := mkInvoice id (ii_userId d) (ii_clientId d) (ii_invoiceNumber d)
                 (ii_status d) (ii_issueDate d) (ii_dueDate d)
                 (ii_paymentTerms d) (ii_subtotal d) (ii_taxRate d)
                 (ii_taxAmount d) (ii_total d) (ii_notes d)
                 (DateAt now) (DateAt now) in
    let s1 := mkStore (clients s) (invoices s) (lineItems s) (currentClientId s)
                (id + 1) (currentLineItemId s) (currentInvoiceNumber s) in
    (inv, with_invoices s1 (JsMap.set id inv (invoices s)))).

(** [{ ...existingInvoice, ...invoice, updatedAt: new Date() }]. *)
Definition apply_patch (now : Z) (e : Invoice) (p : InvoicePatch) : Invoice :=
  mkInvoice (inv_id e) (inv_userId e) (ip_clientId p) (inv_invoiceNumber e)
    (inv_status e) (ip_issueDate p) (ip_dueDate p) (ip_paymentTerms p)
    (ip_subtotal p) (ip_taxRate p) (ip_taxAmount p) (ip_total p) (ip_notes p)
    (inv_createdAt e) (DateAt now).

Definition updateInvoice (now : Z) (id : key) (p : InvoicePatch)
  : M (option Invoice) :=
  storage_op "updateInvoice" (fun s =>
    match id, key_get id (invoices s) with
    | Some z, Some e =>
        let u := apply_patch now e p in
        (Some u, with_invoices s (JsMap.set z u (invoices s)))
    | _, _ => (None, s)
    end).

(** [{ ...existingInvoice, status, updatedAt: new Date() }]. *)
Definition set_status (now : Z) (e : Invoice) (status : string) : Invoice :=
  mkInvoice (inv_id e) (inv_userId e) (inv_clientId e) (inv_invoiceNumber e)
    status (inv_issueDate e) (inv_dueDate e) (inv_paymentTerms e)
    (inv_subtotal e) (inv_taxRate e) (inv_taxAmount e) (inv_total e)
    (inv_notes e) (inv_createdAt e) (DateAt now).

Definition updateInvoiceStatus (now : Z) (id : key) (status : string)
  : M (option Invoice) :=
  storage_op "updateInvoiceStatus" (fun s =>
    match id, key_get id (invoices s) with
    | Some z, Some e =>
        let u := set_status now e status in
        (Some u, with_invoices s (JsMap.set z u (invoices s)))
    | _, _ => (None, s)
    end).

Definition getLineItemsByInvoiceId (invoiceId : key) : M (list LineItem) :=
  storage_op "getLineItemsByInvoiceId" (fun s =>
    (filter (fun li => key_is invoiceId (li_invoiceId li))
       (JsMap.values (lineItems s)), s)).

(** [createLineItem]: fresh id from [currentLineItemId++]. *)
Definition createLineItem (d : InsertLineItem) : M LineItem :=
  storage_op "createLineItem" (fun s =>
    let id := currentLineItemId s in
    let li := mkLineItem id (il_invoiceId d) (il_description d)
                (il_quantity d) (il_rate d) (il_amount d) in
    let s1 := mkStore (clients s) (invoices s) (lineItems s) (currentClientId s)
                (currentInvoiceId s) (id + 1) (currentInvoiceNumber s) in
    (li, with_lineItems s1 (JsMap.set id li (lineItems s)))).

(** Collect the items of the invoice, then [this.lineItems.delete(item.id)]
    for each. *)
Definition deleteLineItemsByInvoiceId (invoiceId : key) : M bool :=
  storage_op "deleteLineItemsByInvoiceId" (fun s =>
    let toDelete := filter (fun li => key_is invoiceId (li_invoiceId li))
                      (JsMap.values (lineItems s)) in
    (true, with_lineItems s
             (fold_left (fun m li => JsMap.delete (li_id li) m) toDelete
                (lineItems s)))).

(** [deleteInvoice]: the line items first, then the invoice entry. *)
Definition deleteInvoice (id : key) : M bool :=
  storage_op "deleteInvoice" (fun s => (tt, s)) ;;;
  deleteLineItemsByInvoiceId id ;;;
  storage_op "invoices.delete" (fun s =>
    match id with
    | Some z => (JsMap.has z (invoices s), with_invoices s (JsMap.delete z (invoices s)))
    | None => (false, s)
    end).

(** [getClientsByUserId]: the clients with [client.userId === userId], in
    insertion order. *)
Definition getClientsByUserId (userId : Z) : M (list Client) :=
  storage_op "getClientsByUserId" (fun s =>
    (filter (fun c => Z.eqb (cl_userId c) userId) (JsMap.values (clients s)), s)).

(** [createClient]: fresh id from [currentClientId++], [createdAt] is
    [new Date()]. *)
Definition createClient (now : Z) (d : InsertClient) : M Client :=
  storage_op "createClient" (fun s =>
    let id := currentClientId s in
    let c := mkClient id (ic_userId d) (ic_name d) (ic_email d) (ic_address d)
               (ic_phone d) (ic_companyName d) (ic_contactPerson d) (DateAt now) in
    let s1 := mkStore (clients s) (invoices s) (lineItems s) (id + 1)
                (currentInvoiceId s) (currentLineItemId s) (currentInvoiceNumber s) in
    (c, with_clients s1 (JsMap.set id c (clients s)))).

(** A present key of the patch replaces the field; an absent one keeps it. *)
Definition merge_field {A} (old : A) (p : option A) : A :=
  match p with Some v => v | None => old end.

(** [{ ...existingClient, ...client }]. *)
Definition apply_client_patch (e : Client) (p : ClientFormData) : Client :=
  mkClient (cl_id e) (cl_userId e) (cf_name p)
    (merge_field (cl_email e) (cf_email p))
    (merge_field (cl_address e) (cf_address p))
    (merge_field (cl_phone e) (cf_phone p))
    (merge_field (cl_companyName e) (cf_companyName p))
    (merge_field (cl_contactPerson e) (cf_contactPerson p))
    (cl_createdAt e).

Definition updateClient (id : key) (p : ClientFormData) : M (option Client) :=
  storage_op "updateClient" (fun s =>
    match id, key_get id (clients s) with
    | Some z, Some e =>
        let u := apply_client_patch e p in
        (Some u, with_clients s (JsMap.set z u (clients s)))
    | _, _ => (None, s)
    end).

(** [this.clients.delete(id)]: whether the key was there. *)
Definition deleteClient (id : key) : M bool :=
  storage_op "deleteClient" (fun s =>
    match id with
    | Some z => (JsMap.has z (clients s), with_clients s (JsMap.delete z (clients s)))
    | None => (false, s)
    end).

Definition getInvoicesByUserId (userId : Z) : M (list Invoice) :=
  storage_op "getInvoicesByUserId" (fun s =>
    (filter (fun i => Z.eqb (inv_userId i) userId) (JsMap.values (invoices s)), s)).

(** [invoice.clientId === clientId] on numbers. *)
Definition getInvoicesByClientId (clientId : float) : M (list Invoice) :=
  storage_op "getInvoicesByClientId" (fun s =>
    (filter (fun i => PrimFloat.eqb (inv_clientId i) clientId)
       (JsMap.values (invoices s)), s)).

(** [{ ...existingLineItem, ...lineItem }]. *)
Definition apply_line_item_patch (e : LineItem) (p : LineItemPatch) : LineItem :=
  mkLineItem (li_id e)
    (merge_field (li_invoiceId e) (lp_invoiceId p))
    (merge_field (li_description e) (lp_description p))
    (merge_field (li_quantity e) (lp_quantity p))
    (merge_field (li_rate e) (lp_rate p))
    (merge_field (li_amount e) (lp_amount p)).

Definition updateLineItem (id : key) (p : LineItemPatch) : M (option LineItem) :=
  storage_op "updateLineItem" (fun s =>
    match id, key_get id (lineItems s) with
    | Some z, Some e =>
        let u := apply_line_item_patch e p in
        (Some u, with_lineItems s (JsMap.set z u (lineItems s)))
    | _, _ => (None, s)
    end).

Definition deleteLineItem (id : key) : M bool :=
  storage_op "deleteLineItem" (fun s =>
    match id with
    | Some z => (JsMap.has z (lineItems s), with_lineItems s (JsMap.delete z (lineItems s)))
    | None => (false, s)
    end).

(** [getDashboardStats]: counts over the user's invoices and the sum
    [reduce((sum, invoice) => sum + Number(invoice.total), 0)] over the paid
    ones ([Number] of the stored [total] string is the number it was
    printed from).  The inner [this.getInvoicesByUserId(userId)] is part
    of this call. *)
Definition getDashboardStats (userId : Z) : M DashboardStats :=
  storage_op "getDashboardStats" (fun s =>
    let userInvoices :=
      filter (fun i => Z.eqb (inv_userId i) userId) (JsMap.values (invoices s)) in
    let totalInvoices := Z.of_nat (List.length userInvoices) in
    let pendingPayment :=
      Z.of_nat (List.length
        (filter (fun i => String.eqb (inv_status i) InvoiceStatus_PENDING) userInvoices)) in
    let paidInvoices :=
      filter (fun i => String.eqb (inv_status i) InvoiceStatus_PAID) userInvoices in
    let paid := Z.of_nat (List.length paidInvoices) in
    let totalRevenue :=
      fold_left (fun sum i => (sum + inv_total i)%float) paidInvoices 0%float in
    (mkDashboardStats totalInvoices pendingPayment paid totalRevenue, s)).

End Storage.

(* ------------------------------------------------------------------ *)
(** ** Invoice numbers *)

Module InvoiceNumber.

Definition digit_char (d : Z) : Ascii.ascii :=
  Ascii.ascii_of_nat (48 + Z.to_nat d).

(** Decimal digits of [n >= 0], prepended to [acc]. *)
Fixpoint digits_of (fuel : nat) (n : Z) (acc : string) : string :=
  match fuel with
  | O => acc
  | S f =>
      let acc' := String (digit_char (n mod 10)) acc in
      if n <? 10 then acc' else digits_of f (n / 10) acc'
  end.

Definition digits_fuel (n : Z) : nat := S (Z.to_nat (Z.log2 n)).

(** [String(n)] for an integer [n] (of magnitude below [1e21], where
    JavaScript prints plain decimal digits). *)
Definition js_int_toString (n : Z) : string :=
  if n <? 0 then ("-" ++ digits_of (digits_fuel (- n)) (- n) "")%string
  else digits_of (digits_fuel n) n "".

(** [s.padStart(len, "0")]. *)
Definition padStart (s : string) (len : nat) : string :=
  (String.concat "" (repeat "0" (len - String.length s)) ++ s)%string.

(** [MemStorage.generateInvoiceNumber]:
    [`INV-${year}-${String(this.currentInvoiceNumber++).padStart(3, '0')}`],
    [year] being [new Date().getFullYear()]. *)
Definition format (year n : Z) : string :=
  ("INV-" ++ js_int_toString year ++ "-" ++ padStart (js_int_toString n) 3)%string.

Definition generateInvoiceNumber (year : Z) : M string :=
  storage_op "generateInvoiceNumber" (fun s =>
    let n := currentInvoiceNumber s in
    (format year n,
     mkStore (clients s) (invoices s) (lineItems s) (currentClientId s)
       (currentInvoiceId s) (currentLineItemId s) (n + 1))).

(** Reading a number back: the characters after the last ['-'], read as a
    decimal. *)
Definition is_digit (c : Ascii.ascii) : bool :=
  (48 <=? Ascii.nat_of_ascii c)%nat && (Ascii.nat_of_ascii c <=? 57)%nat.

Fixpoint all_digits (s : string) : bool :=
  match s with
  | EmptyString => true
  | String c r => is_digit c && all_digits r
  end.

Fixpoint decimal_acc (acc : Z) (s : string) : Z :=
  match s with
  | EmptyString => acc
  | String c r => decimal_acc (acc * 10 + (Z.of_nat (Ascii.nat_of_ascii c) - 48)) r
  end.

Definition decimal_value (s : string) : Z := decimal_acc 0 s.

Fixpoint last_segment (s : string) (cur : string) : string :=
  match s with
  | EmptyString => cur
  | String c r =>
      if Ascii.eqb c (Ascii.ascii_of_nat 45) then last_segment r ""
      else last_segment r (cur ++ String c "")%string
  end.

(** The sequence number of an invoice number. *)
Definition seq_of (s : string) : Z := decimal_value (last_segment s "").

(** [k] successive calls. *)
Fixpoint generate_many (years : list Z) : M (list string) :=
  match years with
  | [] => ret []
  | y :: ys => n <- generateInvoiceNumber y ;; ns <- generate_many ys ;; ret (n :: ns)
  end.

End InvoiceNumber.

(* ------------------------------------------------------------------ *)
(** ** Request bodies and [invoiceFormSchema] *)

(** A parsed JSON request body.  An object is its list of (distinct)
    keys with their values; a missing key reads as [undefined]. *)
Inductive json :=
| JNull
| JBool (b : bool)
| JNum (x : float)
| JStr (s : string)
| JArr (l : list json)
| JObj (fields : list (string * json)).

Fixpoint field (k : string) (fs : list (string * json)) : option json :=
  match fs with
  | [] => None
  | (k', v) :: r => if String.eqb k k' then Some v else field k r
  end.

Module Zod.

(** A zod parse: the output, or the issues found (zod reports every
    issue of the input, not only the first). *)
Inductive result (A : Type) :=
| Ok (a : A)
| Issues (l : list string).
Arguments Ok {A} a.
Arguments Issues {A} l.

Definition ap {A B} (f : result (A -> B)) (a : result A) : result B :=
  match f, a with
  | Ok g, Ok x => Ok (g x)
  | Ok _, Issues l => Issues l
  | Issues l, Ok _ => Issues l
  | Issues l1, Issues l2 => Issues (l1 ++ l2)
  end.

Definition type_name (j : json) : string :=
  match j with
  | JNull => "null"
  | JBool _ => "boolean"
  | JNum x => if PrimFloat.is_nan x then "nan" else "number"
  | JStr _ => "string"
  | JArr _ => "array"
  | JObj _ => "object"
  end.

Definition invalid_type {A} (expected : string) (j : option json) : result A :=
  match j with
  | None => Issues ["Required"%string]
  | Some v => Issues [("Expected " ++ expected ++ ", received " ++ type_name v)%string]
  end.

(** A check of a refinement ([.min(...)], [.max(...)]): [Some msg] when it
    fails. *)
Definition check (A : Type) := A -> option string.

Definition run_checks {A} (cs : list (check A)) (x : A) : result A :=
  match flat_map (fun c => match c x with Some m => [m] | None => [] end) cs with
  | [] => Ok x
  | l => Issues l
  end.

(** [z.number()]: a number other than [NaN]. *)
Definition number (cs : list (check float)) (j : option json) : result float :=
  match j with
  | Some (JNum x) => if PrimFloat.is_nan x then invalid_type "number" j
                     else run_checks cs x
  | _ => invalid_type "number" j
  end.

(** [.min(v)] / [.max(v)] on numbers ([input < v] fails). *)
Definition num_min (v : float) (msg : string) : check float :=
  fun x => if PrimFloat.ltb x v then Some msg else None.
Definition num_max (v : float) (msg : string) : check float :=
  fun x => if PrimFloat.ltb v x then Some msg else None.

Definition str (cs : list (check string)) (j : option json) : result string :=
  match j with
  | Some (JStr s) => run_checks cs s
  | _ => invalid_type "string" j
  end.

Definition str_min1 (msg : string) : check string :=
  fun s => if (String.length s <? 1)%nat then Some msg else None.

(** [.optional()]: [undefined] passes as [None]. *)
Definition optional {A} (p : option json -> result A) (j : option json)
  : result (option A) :=
  match j with
  | None => Ok None
  | Some _ => ap (Ok Some) (p j)
  end.

(** [.default(d)]: [undefined] is replaced by [d] before parsing. *)
Definition with_default {A} (d : json) (p : option json -> result A)
  (j : option json) : result A :=
  match j with None => p (Some d) | Some _ => p j end.

Fixpoint elements {A} (p : option json -> result A) (l : list json)
  : result (list A) :=
  match l with
  | [] => Ok []
  | x :: r => ap (ap (Ok cons) (p (Some x))) (elements p r)
  end.

(** [z.array(p).min(n, msg)]: the length check and every element. *)
Definition array_min {A} (p : option json -> result A) (n : nat) (msg : string)
  (j : option json) : result (list A) :=
  match j with
  | Some (JArr l) =>
      let len_issue := if (List.length l <? n)%nat then [msg] else [] in
      match len_issue, elements p l with
      | [], r => r
      | li, Ok _ => Issues li
      | li, Issues l2 => Issues (li ++ l2)
      end
  | _ => invalid_type "array" j
  end.

Definition obj {A} (p : list (string * json) -> result A) (j : option json)
  : result A :=
  match j with
  | Some (JObj fs) => p fs
  | _ => invalid_type "object" j
  end.

End Zod.

(** A line item of the form. *)
Record FormLineItem := mkFormLineItem {
  fl_description : string;
  fl_quantity : float;
  fl_rate : float;
  fl_amount : float }.

(** [InvoiceFormData], the output of [invoiceFormSchema]. *)
Record InvoiceFormData := mkInvoiceFormData {
  f_clientId : float;
  f_invoiceNumber : string;
  f_issueDate : string;
  f_dueDate : string;
  f_paymentTerms : string;
  f_taxRate : float;
  f_notes : option string;
  f_lineItems : list FormLineItem }.

Definition lineItemSchema : option json -> Zod.result FormLineItem :=
  Zod.obj (fun fs =>
    Zod.ap (Zod.ap (Zod.ap (Zod.ap (Zod.Ok mkFormLineItem)
      (Zod.str [Zod.str_min1 "Description is required"] (field "description" fs)))
      (Zod.number [Zod.num_min 0.01%float "Quantity must be greater than 0"]
         (field "quantity" fs)))
      (Zod.number [Zod.num_min 0%float "Rate cannot be negative"] (field "rate" fs)))
      (Zod.number [] (field "amount" fs))).

Definition invoiceFormSchema : option json -> Zod.result InvoiceFormData :=
  Zod.obj (fun fs =>
    Zod.ap (Zod.ap (Zod.ap (Zod.ap (Zod.ap (Zod.ap (Zod.ap (Zod.ap
      (Zod.Ok mkInvoiceFormData)
      (Zod.number [] (field "clientId" fs)))
      (Zod.str [] (field "invoiceNumber" fs)))
      (Zod.str [] (field "issueDate" fs)))
      (Zod.str [] (field "dueDate" fs)))
      (Zod.str [] (field "paymentTerms" fs)))
      (Zod.with_default (JNum 0%float)
         (Zod.number [Zod.num_min 0%float "Number must be greater than or equal to 0";
                      Zod.num_max 100%float "Number must be less than or equal to 100"])
         (field "taxRate" fs)))
      (Zod.optional (Zod.str []) (field "notes" fs)))
      (Zod.array_min lineItemSchema 1 "At least one line item is required"
         (field "lineItems" fs))).

(** [fromZodError(error).message]: the issues joined in one line. *)
Definition fromZodError_message (issues : list string) : string :=
  ("Validation error: " ++ String.concat "; " issues)%string.

(* ------------------------------------------------------------------ *)
(** ** Invoice handlers ([registerRoutes]) *)

Inductive payload :=
| PInvoice (i : option Invoice)
| PInvoiceLines (i : option Invoice) (ls : list LineItem)
| PInvoiceDetail (i : Invoice) (c : option Client) (ls : list LineItem).

Inductive response :=
| RJson (code : Z) (p : payload)
| RNoContent
| RMessage (code : Z) (message : string).

Definition code_of (r : response) : Z :=
  match r with RJson c _ => c | RNoContent => 204 | RMessage c _ => c end.

(** The totals of the create and update handlers:
    [validatedData.lineItems.reduce((sum, item) => sum + Number(item.amount), 0)],
    [(subtotal * validatedData.taxRate) / 100] and [subtotal + taxAmount],
    in double arithmetic ([Number] of a number is the number). *)
Definition subtotal_of (items : list FormLineItem) : float :=
  fold_left (fun sum item => (sum + fl_amount item)%float) items 0%float.

Definition compute_totals (items : list FormLineItem) (taxRate : float)
  : float * float * float :=
  let subtotal := subtotal_of items in
  let taxAmount := ((subtotal * taxRate) / 100)%float in
  let total := (subtotal + taxAmount)%float in
  (subtotal, taxAmount, total).

(** [validatedData.notes || ""]. *)
Definition notes_or_empty (n : option string) : string :=
  match n with Some s => s | None => "" end.

Definition line_item_of (invoiceId : Z) (item : FormLineItem) : InsertLineItem :=
  mkInsertLineItem invoiceId (fl_description item) (fl_quantity item)
    (fl_rate item) (fl_amount item).

(** The client check of create and update:
    [!client || client.userId !== userId] answers 403. *)
Definition client_owned (userId : Z) (c : option Client) : bool :=
  match c with Some cl => Z.eqb (cl_userId cl) userId | None => false end.

Definition msg_client_forbidden := "Unauthorized access to this client"%string.
Definition msg_invoice_forbidden := "Unauthorized access to this invoice"%string.
Definition msg_not_found := "Invoice not found"%string.

(** [.nullable().optional()] (the insert schema of a nullable column):
    [undefined] is absent, [null] is kept as [null]. *)
Definition zod_nullish {A} (p : option json -> Zod.result A) (j : option json)
  : Zod.result (option (option A)) :=
  match j with
  | None => Zod.Ok None
  | Some JNull => Zod.Ok (Some None)
  | Some _ => Zod.ap (Zod.Ok (fun a => Some (Some a))) (p j)
  end.

(** [clientFormSchema = insertClientSchema.omit({ userId: true })]: the
    [name] column is [notNull], the others nullable; unknown keys are
    stripped. *)
Definition clientFormSchema : option json -> Zod.result ClientFormData :=
  Zod.obj (fun fs =>
    Zod.ap (Zod.ap (Zod.ap (Zod.ap (Zod.ap (Zod.ap
      (Zod.Ok mkClientFormData)
      (Zod.str [] (field "name" fs)))
      (zod_nullish (Zod.str []) (field "email" fs)))
      (zod_nullish (Zod.str []) (field "address" fs)))
      (zod_nullish (Zod.str []) (field "phone" fs)))
      (zod_nullish (Zod.str []) (field "companyName" fs)))
      (zod_nullish (Zod.str []) (field "contactPerson" fs))).

(** An absent or [null] column is stored as no value. *)
Definition flat_field (p : option (option string)) : option string :=
  match p with Some (Some s) => Some s | _ => None end.

(** [{ ...validatedData, userId }]. *)
Definition insert_client_of (userId : Z) (v : ClientFormData) : InsertClient :=
  mkInsertClient userId (cf_name v) (flat_field (cf_email v)) (flat_field (cf_address v))
    (flat_field (cf_phone v)) (flat_field (cf_companyName v))
    (flat_field (cf_contactPerson v)).

(** The bodies of the other routes. *)
Inductive api_payload :=
| PClient (c : option Client)
| PClients (cs : list Client)
| PInvoicesWithClient (l : list (Invoice * option Client))
| PStats (s : DashboardStats)
| PInvoiceNumber (n : string)
| PClientSecret (secret : string).

Inductive api_response :=
| AJson (code : Z) (p : api_payload)
| ANoContent
| AMessage (code : Z) (message : string).

Definition msg_client_not_found := "Client not found"%string.

(** [req.body.invoiceId] of a parsed JSON body. *)
Definition body_field (k : string) (body : option json) : option json :=
  match body with Some (JObj fs) => field k fs | _ => None end.

(** JavaScript truthiness of a JSON value. *)
Definition js_truthy (j : json) : bool :=
  match j with
  | JNull => false
  | JBool b => b
  | JNum x => negb (PrimFloat.is_nan x || PrimFloat.eqb x 0%float)
  | JStr s => negb (String.eqb s "")
  | JArr _ | JObj _ => true
  end.

(** [Math.round(x)] of a finite double: the closest integer, a tie going
    up; [NaN] and the infinities give no integer. *)
Definition js_math_round (x : float) : option Z :=
  if JsNumber.is_finite_num x
  then Some (JsNumber.Qfloor (JsNumber.value x + (1 # 2))%Q)
  else None.

Module Routes.

(** GET /api/invoices/:id ([id] is [Number(req.params.id)]). *)
Definition getInvoiceById (userId : Z) (id : float) : M response :=
  inv <- Storage.getInvoice (JsNumber.float_key id) ;;
  match inv with
  | None => ret (RMessage 404 msg_not_found)
  | Some i =>
      if negb (Z.eqb (inv_userId i) userId)
      then ret (RMessage 403 msg_invoice_forbidden)
      else
        c <- Storage.getClient (JsNumber.float_key (inv_clientId i)) ;;
        ls <- Storage.getLineItemsByInvoiceId (Some (inv_id i)) ;;
        ret (RJson 200 (PInvoiceDetail i c ls))
  end.

(** POST /api/invoices. *)
Definition createInvoice (userId now : Z) (body : option json) : M response :=
  match invoiceFormSchema body with
  | Zod.Issues l => ret (RMessage 400 (fromZodError_message l))
  | Zod.Ok v =>
      c <- Storage.getClient (JsNumber.float_key (f_clientId v)) ;;
      if negb (client_owned userId c) then ret (RMessage 403 msg_client_forbidden)
      else
        let '(subtotal, taxAmount, total) :=
          compute_totals (f_lineItems v) (f_taxRate v) in
        inv <- Storage.createInvoice now
                 (mkInsertInvoice userId (f_clientId v) (f_invoiceNumber v)
                    InvoiceStatus_PENDING
                    (DateOfString (f_issueDate v)) (DateOfString (f_dueDate v))
                    (f_paymentTerms v) subtotal (f_taxRate v) taxAmount total
                    (notes_or_empty (f_notes v))) ;;
        ls <- mapM (fun item => Storage.createLineItem (line_item_of (inv_id inv) item))
                (f_lineItems v) ;;
        ret (RJson 201 (PInvoiceLines (Some inv) ls))
  end.

(** PUT /api/invoices/:id.  The body is validated first; an [undefined]
    result of [updateInvoice] makes [invoice!.id] throw a [TypeError],
    answered 500 by the [catch]. *)
Definition updateInvoice (userId now : Z) (id : float) (body : option json)
  : M response :=
  match invoiceFormSchema body with
  | Zod.Issues l => ret (RMessage 400 (fromZodError_message l))
  | Zod.Ok v =>
      existing <- Storage.getInvoice (JsNumber.float_key id) ;;
      match existing with
      | None => ret (RMessage 404 msg_not_found)
      | Some e =>
          if negb (Z.eqb (inv_userId e) userId)
          then ret (RMessage 403 msg_invoice_forbidden)
          else
            c <- Storage.getClient (JsNumber.float_key (f_clientId v)) ;;
            if negb (client_owned userId c) then ret (RMessage 403 msg_client_forbidden)
            else
              let '(subtotal, taxAmount, total) :=
                compute_totals (f_lineItems v) (f_taxRate v) in
              inv <- Storage.updateInvoice now (JsNumber.float_key id)
                       (mkInvoicePatch (f_clientId v)
                          (DateOfString (f_issueDate v)) (DateOfString (f_dueDate v))
                          (f_paymentTerms v) (notes_or_empty (f_notes v))
                          subtotal (f_taxRate v) taxAmount total) ;;
              match inv with
              | None => ret (RMessage 500 "Failed to update invoice")
              | Some i =>
                  Storage.deleteLineItemsByInvoiceId (Some (inv_id i)) ;;;
                  ls <- mapM (fun item => Storage.createLineItem (line_item_of (inv_id i) item))
                          (f_lineItems v) ;;
                  ret (RJson 200 (PInvoiceLines (Some i) ls))
              end
      end
  end.

(** [Object.values(InvoiceStatus).includes(status)]. *)
Definition valid_status (status : option json) : option string :=
  match status with
  | Some (JStr s) => if existsb (String.eqb s) InvoiceStatus then Some s else None
  | _ => None
  end.

(** PATCH /api/invoices/:id/status ([status] is [req.body.status]). *)
Definition updateInvoiceStatus (userId now : Z) (id : float) (status : option json)
  : M response :=
  existing <- Storage.getInvoice (JsNumber.float_key id) ;;
  match existing with
  | None => ret (RMessage 404 msg_not_found)
  | Some e =>
      if negb (Z.eqb (inv_userId e) userId)
      then ret (RMessage 403 msg_invoice_forbidden)
      else
        match valid_status status with
        | None => ret (RMessage 400 "Invalid status")
        | Some s =>
            inv <- Storage.updateInvoiceStatus now (JsNumber.float_key id) s ;;
            ret (RJson 200 (PInvoice inv))
        end
  end.

(** DELETE /api/invoices/:id. *)
Definition deleteInvoice (userId : Z) (id : float) : M response :=
  existing <- Storage.getInvoice (JsNumber.float_key id) ;;
  match existing with
  | None => ret (RMessage 404 msg_not_found)
  | Some e =>
      if negb (Z.eqb (inv_userId e) userId)
      then ret (RMessage 403 msg_invoice_forbidden)
      else Storage.deleteInvoice (JsNumber.float_key id) ;;; ret RNoContent
  end.

(** GET /api/clients. *)
Definition getClients (userId : Z) : M api_response :=
  cs <- Storage.getClientsByUserId userId ;;
  ret (AJson 200 (PClients cs)).

(** GET /api/clients/:id. *)
Definition getClientById (userId : Z) (id : float) : M api_response :=
  c <- Storage.getClient (JsNumber.float_key id) ;;
  match c with
  | None => ret (AMessage 404 msg_client_not_found)
  | Some cl =>
      if negb (Z.eqb (cl_userId cl) userId)
      then ret (AMessage 403 msg_client_forbidden)
      else ret (AJson 200 (PClient (Some cl)))
  end.

(** POST /api/clients. *)
Definition createClient (userId now : Z) (body : option json) : M api_response :=
  match clientFormSchema body with
  | Zod.Issues l => ret (AMessage 400 (fromZodError_message l))
  | Zod.Ok v =>
      c <- Storage.createClient now (insert_client_of userId v) ;;
      ret (AJson 201 (PClient (Some c)))
  end.

(** PUT /api/clients/:id: existence and owner first, then the body. *)
Definition updateClient (userId : Z) (id : float) (body : option json) : M api_response :=
  existing <- Storage.getClient (JsNumber.float_key id) ;;
  match existing with
  | None => ret (AMessage 404 msg_client_not_found)
  | Some e =>
      if negb (Z.eqb (cl_userId e) userId)
      then ret (AMessage 403 msg_client_forbidden)
      else
        match clientFormSchema body with
        | Zod.Issues l => ret (AMessage 400 (fromZodError_message l))
        | Zod.Ok v =>
            c <- Storage.updateClient (JsNumber.float_key id) v ;;
            ret (AJson 200 (PClient c))
        end
  end.

(** DELETE /api/clients/:id. *)
Definition deleteClient (userId : Z) (id : float) : M api_response :=
  existing <- Storage.getClient (JsNumber.float_key id) ;;
  match existing with
  | None => ret (AMessage 404 msg_client_not_found)
  | Some e =>
      if negb (Z.eqb (cl_userId e) userId)
      then ret (AMessage 403 msg_client_forbidden)
      else Storage.deleteClient (JsNumber.float_key id) ;;; ret ANoContent
  end.

(** GET /api/invoices: each invoice with [await storage.getClient(invoice.clientId)]. *)
Definition getInvoices (userId : Z) : M api_response :=
  invs <- Storage.getInvoicesByUserId userId ;;
  l <- mapM (fun i => c <- Storage.getClient (JsNumber.float_key (inv_clientId i)) ;;
                      ret (i, c)) invs ;;
  ret (AJson 200 (PInvoicesWithClient l)).

(** GET /api/invoices/next-number ([year] is [new Date().getFullYear()]). *)
Definition nextInvoiceNumber (year : Z) : M api_response :=
  n <- InvoiceNumber.generateInvoiceNumber year ;;
  ret (AJson 200 (PInvoiceNumber n)).

(** GET /api/dashboard/stats. *)
Definition getDashboardStats (userId : Z) : M api_response :=
  st <- Storage.getDashboardStats userId ;;
  ret (AJson 200 (PStats st)).

(** POST /api/create-payment-intent.  [to_number] is [Number] on the JSON
    value of [invoiceId]; [stripe amount id number] is the outcome of
    [stripe.paymentIntents.create] with that [amount] and metadata: the
    client secret, or [None] when it throws.  [parseFloat(invoice.total)]
    reads back the number the stored [total] string was printed from. *)
Definition createPaymentIntent (to_number : json -> float)
  (stripe : option Z -> string -> string -> option string)
  (userId : Z) (body : option json) : M api_response :=
  match body_field "invoiceId" body with
  | Some j =>
      if negb (js_truthy j) then ret (AMessage 400 "Invoice ID is required")
      else
        inv <- Storage.getInvoice (JsNumber.float_key (to_number j)) ;;
        match inv with
        | None => ret (AMessage 404 msg_not_found)
        | Some i =>
            if negb (Z.eqb (inv_userId i) userId)
            then ret (AMessage 403 msg_invoice_forbidden)
            else
              let amount := js_math_round (inv_total i * 100)%float in
              fun w =>
                (match stripe amount (InvoiceNumber.js_int_toString (inv_id i))
                         (inv_invoiceNumber i) with
                 | Some secret => AJson 200 (PClientSecret secret)
                 | None => AMessage 500 "Failed to create payment intent"
                 end,
                 mkWorld (store w) (calls w ++ ["stripe.paymentIntents.create"%string]))
        end
  | None => ret (AMessage 400 "Invoice ID is required")
  end.

End Routes.

(* ------------------------------------------------------------------ *)
(** ** The [MemStorage] constructor and well-formed stores *)

Module Sample.

Definition client (id : Z) (name email address phone company contact : string)
  (t0 : Z) : Client :=
  mkClient id 1 name (Some email) (Some address) (Some phone) (Some company)
    (Some contact) (DateAt t0).

Definition clients (t0 : Z) : JsMap.t Client :=
  [(1, client 1 "Acme Corp" "contact@acmecorp.com"
         "100 Market St, San Francisco, CA 94103" "415-555-2345"
         "Acme Corporation" "John Doe" t0);
   (2, client 2 "Stark Industries" "info@stark.com"
         "200 Park Ave, New York, NY 10166" "212-555-3456"
         "Stark Industries" "Tony Stark" t0);
   (3, client 3 "Wayne Enterprises" "info@wayne.com"
         "1 Wayne Tower, Gotham City" "201-555-4567"
         "Wayne Enterprises" "Bruce Wayne" t0);
   (4, client 4 "Pied Piper" "contact@piedpiper.com"
         "5230 Newell Road, Palo Alto, CA 94303" "650-555-5678"
         "Pied Piper" "Richard Hendricks" t0)]%string.

Definition invoice (id clientId : Z) (number status : string) (y m d : Z)
  (amount : float) (notes : string) : Invoice :=
  mkInvoice id 1 (if (clientId =? 1)%Z then 1%float else if (clientId =? 2)%Z then 2%float
                  else if (clientId =? 3)%Z then 3%float else 4%float)
    number status (DateYMD y m d) (DateYMD y (m + 1) d) "net_30"
    amount 0%float 0%float amount notes (DateYMD y m d) (DateYMD y m d).

Definition invoices : JsMap.t Invoice :=
  [(1, invoice 1 1 "INV-2023-041" "paid" 2023 2 14 2400%float
         "Thank you for your business!");
   (2, invoice 2 2 "INV-2023-040" "pending" 2023 2 10 1750%float "");
   (3, invoice 3 3 "INV-2023-039" "overdue" 2023 2 5 3200%float "");
   (4, invoice 4 4 "INV-2023-038" "paid" 2023 1 28 950%float "")]%string.

Definition lineItems : JsMap.t LineItem :=
  [(1, mkLineItem 1 1 "Web Design Services" 20%float 120%float 2400%float);
   (2, mkLineItem 2 2 "UI/UX Consulting" 10%float 175%float 1750%float);
   (3, mkLineItem 3 3 "Mobile App Development" 40%float 80%float 3200%float);
   (4, mkLineItem 4 4 "Logo Design" 1%float 950%float 950%float)]%string.

(** The store built by [new MemStorage()] at clock reading [t0]: the
    counters end one past the sample ids, [currentInvoiceNumber] at 42. *)
Definition initial_store (t0 : Z) : MemStorage :=
  mkStore (clients t0) invoices lineItems 5 5 5 42.

Definition initial_world (t0 : Z) : World := mkWorld (initial_store t0) [].

End Sample.

Fixpoint nodup_keys {V} (m : JsMap.t V) : bool :=
  match m with
  | [] => true
  | (k, _) :: r => negb (existsb (Z.eqb k) (map fst r)) && nodup_keys r
  end.

(** Each entry is stored under its own [id], below the id counter, and
    no key is repeated. *)
Definition keys_ok {V} (idf : V -> Z) (bound : Z) (m : JsMap.t V) : bool :=
  forallb (fun p => Z.eqb (idf (snd p)) (fst p) && (fst p <? bound)) m
  && nodup_keys m.

Definition wf_store (s : MemStorage) : bool :=
  keys_ok inv_id (currentInvoiceId s) (invoices s)
  && keys_ok li_id (currentLineItemId s) (lineItems s).

(** The line items [createLineItem] makes for [items] of invoice [z], with
    ids counted from [c]. *)
Fixpoint new_items (z c : Z) (items : list FormLineItem) : list LineItem :=
  match items with
  | [] => []
  | it :: r => mkLineItem c z (fl_description it) (fl_quantity it) (fl_rate it)
                 (fl_amount it) :: new_items z (c + 1) r
  end.

(** ** Money fields *)

(** The relation between the stored money fields that the handlers
    establish: [total] is the double [subtotal + taxAmount]. *)
Definition totals_ok (i : Invoice) : Prop :=
  inv_total i = (inv_subtotal i + inv_taxAmount i)%float.

Definition store_totals_ok (s : MemStorage) : Prop :=
  Forall (fun p => totals_ok (snd p)) (invoices s).

(** The same relation read on the stored decimal strings, as the
    numbers they denote. *)
Definition totals_as_decimals_ok (i : Invoice) : bool :=
  Qeq_bool (JsNumber.toString_value (inv_total i))
    (JsNumber.toString_value (inv_subtotal i) + JsNumber.toString_value (inv_taxAmount i)).

Definition store_decimals_ok (s : MemStorage) : bool :=
  forallb (fun p => totals_as_decimals_ok (snd p)) (invoices s).

(** Rounding to 2 decimal places, half up (the rounding the
    specification asks for; no such step occurs in the handlers). *)
Definition round2_half_up (q : Q) : Q :=
  (inject_Z (JsNumber.Qfloor (q * 100 + (1 # 2))%Q) / 100)%Q.

(** The specified totals of an invoice with tax rate [taxRate] and line
    amounts [amounts]: [subtotal = round2(sum)], [taxAmount =
    round2(subtotal * taxRate / 100)], [total = subtotal + taxAmount], the
    stored strings read as numbers. *)
Definition totals_rounded_as_spec (taxRate : Q) (amounts : list Q) (i : Invoice) : bool :=
  let sub := round2_half_up (fold_left Qplus amounts 0%Q) in
  let tax := round2_half_up (sub * taxRate / 100)%Q in
  Qeq_bool (JsNumber.toString_value (inv_subtotal i)) sub
  && Qeq_bool (JsNumber.toString_value (inv_taxAmount i)) tax
  && Qeq_bool (JsNumber.toString_value (inv_total i)) (sub + tax)%Q.

(** A create or update body for client 1 with one line item. *)
Definition one_item_body (taxRate amount : float) : option json :=
  Some (JObj [("clientId", JNum 1%float); ("invoiceNumber", JStr "INV-2024-100");
              ("issueDate", JStr "2024-01-01"); ("dueDate", JStr "2024-01-31");
              ("paymentTerms", JStr "net_30"); ("taxRate", JNum taxRate);
              ("lineItems", JArr [JObj [("description", JStr "Work");
                                        ("quantity", JNum 1%float);
                                        ("rate", JNum amount);
                                        ("amount", JNum amount)]])])%string.

(** The form data [invoiceFormSchema] makes of [one_item_body]. *)
Definition one_item_form (taxRate amount : float) : InvoiceFormData :=
  mkInvoiceFormData 1%float "INV-2024-100" "2024-01-01" "2024-01-31" "net_30"
    taxRate None [mkFormLineItem "Work" 1%float amount amount].

(** ** Users ([MemStorage]'s user methods)

    The users map and its counter are read and written by the user
    methods only; they are kept here as a store of their own. *)

Record User := mkUser {
  u_id : Z;
  u_username : string;
  u_password : string;
  u_fullName : string;
  u_email : string;
  u_address : option string;
  u_phone : option string;
  u_companyName : option string;
  u_companyLogo : option string }.

Record InsertUser := mkInsertUser {
  iu_username : string;
  iu_password : string;
  iu_fullName : string;
  iu_email : string;
  iu_address : option string;
  iu_phone : option string;
  iu_companyName : option string;
  iu_companyLogo : option string }.

Record UserStore := mkUserStore {
  users : JsMap.t User;
  currentUserId : Z }.

Module Users.

Definition getUser (id : key) (s : UserStore) : option User :=
  key_get id (users s).

(** [Array.from(this.users.values()).find(user => user.username === username)]. *)
Definition getUserByUsername (username : string) (s : UserStore) : option User :=
  find (fun u => String.eqb (u_username u) username) (JsMap.values (users s)).

(** [createUser]: [{ ...user, id }] with [id = this.currentUserId++]. *)
Definition createUser (d : InsertUser) (s : UserStore) : User * UserStore :=
  let id := currentUserId s in
  let u := mkUser id (iu_username d) (iu_password d) (iu_fullName d) (iu_email d)
             (iu_address d) (iu_phone d) (iu_companyName d) (iu_companyLogo d) in
  (u, mkUserStore (JsMap.set id u (users s)) (id + 1)).

(** The constructor's users: the sample user under id 1, and
    [currentUserId = 1] (never advanced past it). *)
Definition sampleUser : User :=
  (mkUser 1 "samwilson" "password123" "Sam Wilson" "sam@example.com"
    (Some "123 Main St, San Francisco, CA 94101") (Some "415-555-1234")
    (Some "Sam Wilson Freelance") None)%string.

Definition initial_users : UserStore := mkUserStore [(1, sampleUser)] 1.

End Users.

(* ------------------------------------------------------------------ *)
(** ** CSV export ([client/src/lib/csv-generator.ts]) *)

Definition dq : Ascii.ascii := Ascii.Ascii false true false false false true false false.
Definition comma : Ascii.ascii := Ascii.Ascii false false true true false true false false.
Definition nl : Ascii.ascii := Ascii.Ascii false true false true false false false false.

(** [Array.prototype.join]. *)
Fixpoint js_join (sep : string) (l : list string) : string :=
  match l with
  | [] => ""%string
  | x :: r => match r with [] => x | _ => (x ++ sep ++ js_join sep r)%string end
  end.

(** [s.replace(/Q/g, QQ)], [Q] being the double-quote character: every
    quote doubled. *)
Fixpoint escape_quotes (s : string) : string :=
  match s with
  | EmptyString => EmptyString
  | String c r =>
      if Ascii.eqb c dq then String dq (String dq (escape_quotes r))
      else String c (escape_quotes r)
  end.

(** The cell, its quotes doubled, between two quotes. *)
Definition quote_cell (cell : string) : string :=
  String dq (escape_quotes cell ++ String dq EmptyString)%string.

Definition csv_headers : list string :=
  ["Invoice Number"; "Date"; "Due Date"; "Status"; "Client Name";
   "Client Email"; "Client Address"; "Item Description"; "Quantity";
   "Rate"; "Amount"; "Subtotal"; "Tax Rate"; "Tax Amount"; "Total";
   "Notes"]%string.

(** [x || ""] on an optional string column. *)
Definition or_empty (o : option string) : string :=
  match o with Some s => s | None => ""%string end.

Section Csv.
(** [Number.prototype.toString] on the stored numbers, and
    [new Date(date).toISOString().split('T')[0]]. *)
Variable num_toString : float -> string.
Variable formatDate : jsdate -> string.

(** The row of the line item at [index] ([invoice.notes || ""] is the
    stored notes string). *)
Definition item_row (inv : Invoice) (cl : Client) (index : nat) (item : LineItem)
  : list string :=
  [inv_invoiceNumber inv; formatDate (inv_issueDate inv);
   formatDate (inv_dueDate inv); inv_status inv; cl_name cl;
   or_empty (cl_email cl); or_empty (cl_address cl); li_description item;
   num_toString (li_quantity item); num_toString (li_rate item);
   num_toString (li_amount item);
   if Nat.eqb index 0 then num_toString (inv_subtotal inv) else "";
   if Nat.eqb index 0 then num_toString (inv_taxRate inv) else "";
   if Nat.eqb index 0 then num_toString (inv_taxAmount inv) else "";
   if Nat.eqb index 0 then num_toString (inv_total inv) else "";
   if Nat.eqb index 0 then inv_notes inv else ""]%string.

(** [lineItems.forEach((item, index) => rows.push(row))]. *)
Fixpoint item_rows (inv : Invoice) (cl : Client) (index : nat) (items : list LineItem)
  : list (list string) :=
  match items with
  | [] => []
  | it :: r => item_row inv cl index it :: item_rows inv cl (S index) r
  end.

(** The row pushed when there are no line items. *)
Definition empty_items_row (inv : Invoice) (cl : Client) : list string :=
  [inv_invoiceNumber inv; formatDate (inv_issueDate inv);
   formatDate (inv_dueDate inv); inv_status inv; cl_name cl;
   or_empty (cl_email cl); or_empty (cl_address cl); ""; ""; ""; "";
   num_toString (inv_subtotal inv); num_toString (inv_taxRate inv);
   num_toString (inv_taxAmount inv); num_toString (inv_total inv);
   inv_notes inv]%string.

Definition csv_rows (inv : Invoice) (cl : Client) (items : list LineItem)
  : list (list string) :=
  item_rows inv cl 0 items
  ++ (if Nat.eqb (List.length items) 0 then [empty_items_row inv cl] else []).

(** [headerLine]: each header between two quotes, joined by commas. *)
Definition header_line : string :=
  js_join ","%string (map (fun h => String dq (h ++ String dq EmptyString)%string) csv_headers).

Definition data_line (row : list string) : string :=
  js_join ","%string (map quote_cell row).

(** [[headerLine, ...dataLines]] joined by line feeds. *)
Definition csvContent (inv : Invoice) (cl : Client) (items : list LineItem) : string :=
  js_join (String nl EmptyString)
    (header_line :: map data_line (csv_rows inv cl items)).

End Csv.

Definition csv_filename (inv : Invoice) : string :=
  ("Invoice_" ++ inv_invoiceNumber inv ++ ".csv")%string.

(** A reader of CSV text whose fields are all quoted (RFC 4180): a field
    opens with a quote, a doubled quote inside stands for one quote, and
    the closing quote is followed by a comma, a line feed or the end. *)
Inductive csv_mode := CellStart | InCell | AfterQuote.

Fixpoint csv_dec (s : string) (m : csv_mode) (cell : list Ascii.ascii)
  (row : list string) (rows : list (list string)) : option (list (list string)) :=
  match s with
  | EmptyString =>
      match m with
      | AfterQuote => Some (rev (rev (string_of_list_ascii (rev cell) :: row) :: rows))
      | _ => None
      end
  | String c r =>
      match m with
      | CellStart => if Ascii.eqb c dq then csv_dec r InCell [] row rows else None
      | InCell =>
          if Ascii.eqb c dq then csv_dec r AfterQuote cell row rows
          else csv_dec r InCell (c :: cell) row rows
      | AfterQuote =>
          if Ascii.eqb c dq then csv_dec r InCell (dq :: cell) row rows
          else if Ascii.eqb c comma
          then csv_dec r CellStart [] (string_of_list_ascii (rev cell) :: row) rows
          else if Ascii.eqb c nl
          then csv_dec r CellStart [] [] (rev (string_of_list_ascii (rev cell) :: row) :: rows)
          else None
      end
  end.

Definition csv_parse (s : string) : option (list (list string)) :=
  csv_dec s CellStart [] [] [].

(* ================================================================== *)
(** * Properties *)

Lemma ap_issues_r {A B} (f : Zod.result (A -> B)) l :
  exists l', Zod.ap f (Zod.Issues l) = Zod.Issues l'.
Proof. destruct f; simpl; eauto. Qed.

Lemma existsb_eqb_false s l :
  ~ In s l -> existsb (String.eqb s) l = false.
Proof.
  induction l as [|x r IH]; simpl; intros Hn; [reflexivity|].
  destruct (String.eqb_spec s x) as [->|Hne]; [exfalso; tauto|].
  simpl. apply IH. tauto.
Qed.

Lemma existsb_eqb_true s l :
  In s l -> existsb (String.eqb s) l = true.
Proof.
  intros Hin. apply existsb_exists. exists s. split; [exact Hin|].
  apply String.eqb_refl.
Qed.

Ltac run_handler :=
  cbv beta delta [bind ret storage_op Storage.getInvoice Storage.getClient
                  Storage.updateInvoiceStatus Storage.updateInvoice
                  Storage.deleteInvoice Storage.deleteLineItemsByInvoiceId
                  Storage.getLineItemsByInvoiceId] iota.

(** C3: for an existing invoice of the requesting user, a status string
    outside [draft, pending, paid, overdue, cancelled] is answered 400
    ["Invalid status"] and the store is left as it was. *)
Theorem status_update_rejects_unknown_status :
  forall userId now id w e s,
    key_get (JsNumber.float_key id) (invoices (store w)) = Some e ->
    inv_userId e = userId ->
    ~ In s InvoiceStatus ->
    let '(r, w') := Routes.updateInvoiceStatus userId now id (Some (JStr s)) w in
    r = RMessage 400 "Invalid status" /\ store w' = store w.
Proof.
  intros userId now id w e s Hget Howner Hs.
  assert (Hv : Routes.valid_status (Some (JStr s)) = None).
  { unfold Routes.valid_status. rewrite (existsb_eqb_false s _ Hs). reflexivity. }
  unfold Routes.updateInvoiceStatus. rewrite Hv. run_handler.
  destruct w as [st cs]; simpl in Hget |- *. rewrite Hget.
  subst userId; rewrite Z.eqb_refl. simpl.
  split; reflexivity.
Qed.

(** C4: a create request whose [lineItems] is the empty array fails the
    form schema and is answered 400; no storage call is made, so no
    invoice and no line item is stored. *)
Theorem create_rejects_empty_line_items :
  forall userId now fs w,
    field "lineItems" fs = Some (JArr []) ->
    exists l, Routes.createInvoice userId now (Some (JObj fs)) w
              = (RMessage 400 (fromZodError_message l), w).
Proof.
  intros userId now fs w Hli.
  unfold Routes.createInvoice.
  assert (Hs : exists l, invoiceFormSchema (Some (JObj fs)) = Zod.Issues l).
  { unfold invoiceFormSchema, Zod.obj. rewrite Hli.
    unfold Zod.array_min; simpl. apply ap_issues_r. }
  destruct Hs as [l Hl]. rewrite Hl. exists l. reflexivity.
Qed.

(** C8: a status update of an existing invoice of the requesting user to
    one of the five statuses answers 200 with the updated invoice, which is
    stored under the same key; its [status] is the requested one and its
    [updatedAt] is [new Date()], while [subtotal], [taxAmount], [total]
    and every other field keep their stored values. *)
Theorem status_update_frame :
  forall userId now id w e s,
    key_get (JsNumber.float_key id) (invoices (store w)) = Some e ->
    inv_userId e = userId ->
    In s InvoiceStatus ->
    let '(r, w') := Routes.updateInvoiceStatus userId now id (Some (JStr s)) w in
    exists z u,
      JsNumber.float_key id = Some z /\
      r = RJson 200 (PInvoice (Some u)) /\
      invoices (store w') = JsMap.set z u (invoices (store w)) /\
      clients (store w') = clients (store w) /\
      lineItems (store w') = lineItems (store w) /\
      inv_status u = s /\ inv_updatedAt u = DateAt now /\
      inv_subtotal u = inv_subtotal e /\ inv_taxAmount u = inv_taxAmount e /\
      inv_total u = inv_total e /\
      inv_id u = inv_id e /\ inv_userId u = inv_userId e /\
      inv_clientId u = inv_clientId e /\
      inv_invoiceNumber u = inv_invoiceNumber e /\
      inv_issueDate u = inv_issueDate e /\ inv_dueDate u = inv_dueDate e /\
      inv_paymentTerms u = inv_paymentTerms e /\
      inv_taxRate u = inv_taxRate e /\ inv_notes u = inv_notes e /\
      inv_createdAt u = inv_createdAt e.
Proof.
  intros userId now id w e s Hget Howner Hs.
  assert (Hv : Routes.valid_status (Some (JStr s)) = Some s).
  { unfold Routes.valid_status. rewrite (existsb_eqb_true s _ Hs). reflexivity. }
  unfold Routes.updateInvoiceStatus. rewrite Hv. run_handler.
  destruct w as [st cs]; simpl in Hget |- *. rewrite Hget.
  subst userId; rewrite Z.eqb_refl. simpl.
  destruct (JsNumber.float_key id) as [z|] eqn:Hk; [|discriminate].
  simpl in Hget |- *. rewrite Hget.
  exists z, (Storage.set_status now e s).
  repeat split; reflexivity.
Qed.

(** C10: the update handler parses the body before any storage call:
    a body failing [invoiceFormSchema] is answered 400 with the world
    (store and storage-call log) unchanged, whatever the id; so a 404
    answer comes only with a body that passes the schema. *)
Theorem update_validates_body_first :
  forall userId now id body w,
    (forall l, invoiceFormSchema body = Zod.Issues l ->
       Routes.updateInvoice userId now id body w
       = (RMessage 400 (fromZodError_message l), w)) /\
    (forall m w', Routes.updateInvoice userId now id body w = (RMessage 404 m, w') ->
       exists v, invoiceFormSchema body = Zod.Ok v).
Proof.
  intros userId now id body w. split.
  - intros l Hl. unfold Routes.updateInvoice. rewrite Hl. reflexivity.
  - intros m w' H. unfold Routes.updateInvoice in H.
    destruct (invoiceFormSchema body) as [v|l]; [eauto|discriminate].
Qed.

(** C9 (as amended): for an invoice stored under the id whose owner is
    not the requesting user, fetch, status update and delete answer 403
    ["Unauthorized access to this invoice"]; update answers that 403 when
    the body passes the form schema and 400 (the validation error) when it
    does not.  None of them returns invoice or line-item data, and the
    store is unchanged. *)
Theorem foreign_invoice_forbidden :
  forall userId now id w e,
    key_get (JsNumber.float_key id) (invoices (store w)) = Some e ->
    inv_userId e <> userId ->
    (let '(r, w') := Routes.getInvoiceById userId id w in
     r = RMessage 403 msg_invoice_forbidden /\ store w' = store w) /\
    (forall status,
     let '(r, w') := Routes.updateInvoiceStatus userId now id status w in
     r = RMessage 403 msg_invoice_forbidden /\ store w' = store w) /\
    (let '(r, w') := Routes.deleteInvoice userId id w in
     r = RMessage 403 msg_invoice_forbidden /\ store w' = store w) /\
    (forall body,
     let '(r, w') := Routes.updateInvoice userId now id body w in
     r = match invoiceFormSchema body with
         | Zod.Ok _ => RMessage 403 msg_invoice_forbidden
         | Zod.Issues l => RMessage 400 (fromZodError_message l)
         end /\ store w' = store w).
Proof.
  intros userId now id w e Hget Hne.
  assert (Hb : Z.eqb (inv_userId e) userId = false) by (apply Z.eqb_neq; exact Hne).
  destruct w as [st cs]; simpl in Hget.
  repeat split.
  - unfold Routes.getInvoiceById. run_handler. simpl. rewrite Hget, Hb. split; reflexivity.
  - intros status. unfold Routes.updateInvoiceStatus. run_handler. simpl.
    rewrite Hget, Hb. split; reflexivity.
  - unfold Routes.deleteInvoice. run_handler. simpl. rewrite Hget, Hb. split; reflexivity.
  - intros body. unfold Routes.updateInvoice.
    destruct (invoiceFormSchema body) as [v|l].
    + run_handler. simpl. rewrite Hget, Hb. split; reflexivity.
    + split; reflexivity.
Qed.

(** ** Line-item storage lemmas *)

Lemma get_in {V} (z : Z) (v : V) (m : JsMap.t V) :
  JsMap.get z m = Some v -> In (z, v) m.
Proof.
  induction m as [|[k x] r IH]; simpl; [discriminate|].
  destruct (Z.eqb_spec z k) as [->|_]; intros H.
  - injection H as ->. left. reflexivity.
  - right. auto.
Qed.

Lemma keys_ok_spec {V} (idf : V -> Z) bound (m : JsMap.t V) :
  keys_ok idf bound m = true ->
  forall p, In p m -> idf (snd p) = fst p /\ fst p < bound.
Proof.
  unfold keys_ok. intros H p Hp. apply andb_prop in H as [H _].
  rewrite forallb_forall in H. specialize (H p Hp).
  apply andb_prop in H as [H1 H2]. apply Z.eqb_eq in H1. apply Z.ltb_lt in H2.
  split; assumption.
Qed.

Lemma wf_invoices s :
  wf_store s = true ->
  forall p, In p (invoices s) -> inv_id (snd p) = fst p /\ fst p < currentInvoiceId s.
Proof. unfold wf_store. intros H. apply andb_prop in H as [H _]. apply keys_ok_spec, H. Qed.

Lemma wf_lineItems s :
  wf_store s = true ->
  forall p, In p (lineItems s) -> li_id (snd p) = fst p /\ fst p < currentLineItemId s.
Proof. unfold wf_store. intros H. apply andb_prop in H as [_ H]. apply keys_ok_spec, H. Qed.

(** [set] on a key above every present key appends. *)
Lemma set_fresh {V} (k : Z) (v : V) (m : JsMap.t V) :
  (forall p, In p m -> fst p < k) -> JsMap.set k v m = m ++ [(k, v)].
Proof.
  induction m as [|[k' x] r IH]; simpl; intros H; [reflexivity|].
  assert (Hk : k' < k) by (apply (H (k', x)); left; reflexivity).
  destruct (Z.eqb_spec k k') as [->|_]; [lia|].
  f_equal. apply IH. intros p Hp. apply H. right. exact Hp.
Qed.

Lemma filter_filter_comm {A} (f g : A -> bool) (l : list A) :
  filter f (filter g l) = filter (fun x => g x && f x) l.
Proof.
  induction l as [|x r IH]; simpl; [reflexivity|].
  destruct (g x); simpl; [destruct (f x); simpl; rewrite IH; reflexivity|exact IH].
Qed.

(** Deleting the ids of [L] one by one keeps the entries whose key is not
    among them. *)
Lemma fold_delete_filter (L : list LineItem) (m : JsMap.t LineItem) :
  fold_left (fun m li => JsMap.delete (li_id li) m) L m
  = filter (fun p => negb (existsb (Z.eqb (fst p)) (map li_id L))) m.
Proof.
  revert m. induction L as [|x L IH]; intros m; simpl.
  - induction m as [|p r IHm]; simpl; [reflexivity|]. f_equal. exact IHm.
  - rewrite IH. unfold JsMap.delete. rewrite filter_filter_comm.
    apply filter_ext. intros p. destruct (Z.eqb (fst p) (li_id x)); reflexivity.
Qed.

(** After [deleteLineItemsByInvoiceId] no item of that invoice is left,
    when every item is stored under its id. *)
Lemma delete_by_invoice_spec (z : Z) (m : JsMap.t LineItem) :
  (forall p, In p m -> li_id (snd p) = fst p) ->
  forall p, In p (fold_left (fun m li => JsMap.delete (li_id li) m)
                   (filter (fun li => key_is (Some z) (li_invoiceId li))
                      (JsMap.values m)) m) ->
            In p m /\ li_invoiceId (snd p) <> z.
Proof.
  intros Hid p. rewrite fold_delete_filter, filter_In.
  intros [Hin Hn]. split; [exact Hin|]. intros Heq.
  apply negb_true_iff in Hn. rewrite <- not_true_iff_false in Hn. apply Hn.
  apply existsb_exists. exists (fst p). split; [|apply Z.eqb_refl].
  apply in_map_iff. exists (snd p). split; [apply Hid, Hin|].
  apply filter_In. split.
  - unfold JsMap.values. apply in_map_iff. exists p. auto.
  - simpl. rewrite Heq. apply Z.eqb_refl.
Qed.

Lemma filter_values_none (z : Z) (m : JsMap.t LineItem) :
  (forall p, In p m -> li_invoiceId (snd p) <> z) ->
  filter (fun li => Z.eqb (li_invoiceId li) z) (map snd m) = [].
Proof.
  induction m as [|p r IH]; simpl; intros H; [reflexivity|].
  assert (Hp : li_invoiceId (snd p) <> z) by (apply H; left; reflexivity).
  apply Z.eqb_neq in Hp. rewrite Hp. apply IH. intros q Hq. apply H. right. exact Hq.
Qed.

Lemma get_delete {V} (z : Z) (m : JsMap.t V) : JsMap.get z (JsMap.delete z m) = None.
Proof.
  unfold JsMap.delete. induction m as [|[k v] r IH]; simpl; [reflexivity|].
  destruct (Z.eqb_spec k z) as [->|Hne]; simpl; [exact IH|].
  destruct (Z.eqb_spec z k) as [->|_]; [congruence|exact IH].
Qed.

Lemma key_of_stored_invoice s id e :
  wf_store s = true ->
  key_get (JsNumber.float_key id) (invoices s) = Some e ->
  JsNumber.float_key id = Some (inv_id e).
Proof.
  intros Hwf Hget. destruct (JsNumber.float_key id) as [z|]; [|discriminate].
  simpl in Hget. apply get_in in Hget.
  apply (wf_invoices s Hwf) in Hget. simpl in Hget. destruct Hget as [-> _]. reflexivity.
Qed.

(** C7: deleting an existing invoice of the requesting user answers 204;
    afterwards no stored line item has that invoice's id (fetching its line
    items gives the empty list) and the invoice entry is gone. *)
Theorem delete_invoice_removes_line_items :
  forall userId id w e,
    wf_store (store w) = true ->
    key_get (JsNumber.float_key id) (invoices (store w)) = Some e ->
    inv_userId e = userId ->
    let '(r, w') := Routes.deleteInvoice userId id w in
    r = RNoContent /\
    fst (Storage.getLineItemsByInvoiceId (Some (inv_id e)) w') = [] /\
    (forall li, In li (JsMap.values (lineItems (store w'))) -> li_invoiceId li <> inv_id e) /\
    key_get (JsNumber.float_key id) (invoices (store w')) = None.
Proof.
  intros userId id w e Hwf Hget Howner.
  pose proof (key_of_stored_invoice _ _ _ Hwf Hget) as Hk.
  assert (Hid : forall p, In p (lineItems (store w)) -> li_id (snd p) = fst p)
    by (intros p Hp; apply (wf_lineItems _ Hwf p Hp)).
  destruct w as [st cs]; simpl in Hget, Hid |- *.
  unfold Routes.deleteInvoice. run_handler. rewrite Hk in Hget |- *. simpl in Hget |- *.
  rewrite Hget. subst userId. rewrite Z.eqb_refl. simpl.
  set (z := inv_id e) in *.
  assert (Hno : forall p, In p (fold_left (fun m li => JsMap.delete (li_id li) m)
                   (filter (fun li => key_is (Some z) (li_invoiceId li))
                      (JsMap.values (lineItems st))) (lineItems st)) ->
                li_invoiceId (snd p) <> z)
    by (intros p Hp; apply (delete_by_invoice_spec z _ Hid p Hp)).
  repeat split.
  - apply filter_values_none. exact Hno.
  - intros li Hli. unfold JsMap.values in Hli. apply in_map_iff in Hli as [p [<- Hp]].
    apply Hno, Hp.
  - apply get_delete.
Qed.

Lemma bind_apply {A B} (m : M A) (k : A -> M B) w :
  bind m k w = let '(a, w') := m w in k a w'.
Proof. reflexivity. Qed.

Lemma createLineItem_apply d st cs :
  Storage.createLineItem d (mkWorld st cs)
  = (mkLineItem (currentLineItemId st) (il_invoiceId d) (il_description d)
       (il_quantity d) (il_rate d) (il_amount d),
     mkWorld (mkStore (clients st) (invoices st)
                (JsMap.set (currentLineItemId st)
                   (mkLineItem (currentLineItemId st) (il_invoiceId d) (il_description d)
                      (il_quantity d) (il_rate d) (il_amount d)) (lineItems st))
                (currentClientId st) (currentInvoiceId st) (currentLineItemId st + 1)
                (currentInvoiceNumber st))
       (cs ++ ["createLineItem"%string])).
Proof. reflexivity. Qed.

(** The [Promise.all(lineItems.map(item => storage.createLineItem(...)))]
    of create and update: the calls run in order, each appending an item
    under a fresh id. *)
Lemma create_line_items_spec (z : Z) (items : list FormLineItem) :
  forall w,
    (forall p, In p (lineItems (store w)) -> fst p < currentLineItemId (store w)) ->
    let c := currentLineItemId (store w) in
    let '(ls, w') := mapM (fun item => Storage.createLineItem (line_item_of z item)) items w in
    ls = new_items z c items /\
    lineItems (store w') = lineItems (store w) ++ map (fun li => (li_id li, li)) ls /\
    invoices (store w') = invoices (store w) /\
    clients (store w') = clients (store w) /\
    currentLineItemId (store w') = c + Z.of_nat (List.length items) /\
    currentInvoiceNumber (store w') = currentInvoiceNumber (store w).
Proof.
  induction items as [|it r IH]; intros w Hfresh; simpl.
  - rewrite app_nil_r. repeat split. lia.
  - destruct w as [st cs]. simpl in Hfresh |- *.
    rewrite bind_apply, createLineItem_apply. cbv beta iota.
    rewrite bind_apply.
    set (c := currentLineItemId st) in *.
    set (li := mkLineItem c z (fl_description it) (fl_quantity it) (fl_rate it) (fl_amount it)).
    set (w1 := mkWorld (mkStore (clients st) (invoices st) (JsMap.set c li (lineItems st))
                 (currentClientId st) (currentInvoiceId st) (c + 1) (currentInvoiceNumber st))
                 (cs ++ ["createLineItem"%string])).
    assert (Hset : JsMap.set c li (lineItems st) = lineItems st ++ [(c, li)])
      by (apply set_fresh; exact Hfresh).
    assert (Hf1 : forall p, In p (lineItems (store w1)) -> fst p < currentLineItemId (store w1)).
    { simpl. rewrite Hset. intros p Hp. apply in_app_or in Hp as [Hp|[<-|[]]].
      - specialize (Hfresh p Hp). lia.
      - simpl. lia. }
    specialize (IH w1 Hf1).
    destruct (mapM _ r _) as [ls w2] eqn:E.
    simpl in IH |- *. destruct IH as [Hls [Hli [Hinv [Hcl [Hc Hn]]]]].
    repeat split.
    + rewrite Hls. reflexivity.
    + rewrite Hli, Hset, <- app_assoc. reflexivity.
    + exact Hinv.
    + exact Hcl.
    + rewrite Hc. lia.
    + exact Hn.
Qed.

Lemma new_items_fields z c items :
  map (fun li => (li_invoiceId li, li_description li, li_quantity li, li_rate li, li_amount li))
      (new_items z c items)
  = map (fun it => (z, fl_description it, fl_quantity it, fl_rate it, fl_amount it)) items.
Proof.
  revert c. induction items as [|it r IH]; intros c; simpl; [reflexivity|].
  f_equal. apply IH.
Qed.

Lemma new_items_ids z c items :
  forall li, In li (new_items z c items) -> li_invoiceId li = z /\ c <= li_id li.
Proof.
  revert c. induction items as [|it r IH]; intros c li Hin; simpl in Hin; [contradiction|].
  destruct Hin as [<-|Hin]; [simpl; lia|].
  apply IH in Hin. lia.
Qed.

Lemma filter_new_items z c items :
  filter (fun li => Z.eqb (li_invoiceId li) z) (new_items z c items)
  = new_items z c items.
Proof.
  revert c. induction items as [|it r IH]; intros c; simpl; [reflexivity|].
  rewrite Z.eqb_refl. f_equal. apply IH.
Qed.

(** C6: a successful update of an existing invoice of the requesting user
    answers 200 with the new line items; afterwards the items stored for
    the invoice are exactly those (one per submitted item, in order, with
    the submitted description, quantity, rate and amount), and no item
    that was stored for the invoice before is still stored. *)
Theorem update_replaces_line_items :
  forall userId now id body w v e,
    wf_store (store w) = true ->
    invoiceFormSchema body = Zod.Ok v ->
    key_get (JsNumber.float_key id) (invoices (store w)) = Some e ->
    inv_userId e = userId ->
    client_owned userId (key_get (JsNumber.float_key (f_clientId v)) (clients (store w))) = true ->
    let '(r, w') := Routes.updateInvoice userId now id body w in
    exists i ls,
      r = RJson 200 (PInvoiceLines (Some i) ls) /\ inv_id i = inv_id e /\
      fst (Storage.getLineItemsByInvoiceId (Some (inv_id e)) w') = ls /\
      map (fun li => (li_invoiceId li, li_description li, li_quantity li, li_rate li,
                      li_amount li)) ls
      = map (fun it => (inv_id e, fl_description it, fl_quantity it, fl_rate it,
                        fl_amount it)) (f_lineItems v) /\
      (forall li, In li (JsMap.values (lineItems (store w))) -> li_invoiceId li = inv_id e ->
         ~ In li (JsMap.values (lineItems (store w')))).
Proof.
  intros userId now id body w v e Hwf Hv Hget Howner Hcl.
  pose proof (key_of_stored_invoice _ _ _ Hwf Hget) as Hk.
  pose proof (wf_lineItems _ Hwf) as Hli.
  destruct w as [st cs]; simpl in Hget, Hcl, Hli |- *.
  unfold Routes.updateInvoice. rewrite Hv. run_handler.
  rewrite Hk in Hget |- *. simpl in Hget |- *. rewrite Hget.
  subst userId. rewrite Z.eqb_refl. simpl. rewrite Hcl. simpl.
  simpl. rewrite Hget. simpl.
  set (z := inv_id e) in *.
  set (m := lineItems st) in *.
  assert (Hm' : forall p, In p (fold_left (fun m li => JsMap.delete (li_id li) m)
               (filter (fun li => key_is (Some z) (li_invoiceId li)) (JsMap.values m)) m) ->
                In p m /\ li_invoiceId (snd p) <> z).
  { intros p Hp. apply (delete_by_invoice_spec z m); [|exact Hp].
    intros q Hq. apply (Hli q Hq). }
  destruct (mapM _ (f_lineItems v) _) as [ls w3] eqn:E.
  match type of E with
  | mapM _ _ ?W = _ =>
      assert (Hfresh : forall p, In p (lineItems (store W)) ->
                         fst p < currentLineItemId (store W));
      [|pose proof (create_line_items_spec z (f_lineItems v) W Hfresh) as Hc]
  end.
  { simpl. intros p Hp. apply Hm' in Hp as [Hp _]. apply (Hli p Hp). }
  rewrite E in Hc. cbv zeta in Hc. simpl in Hc.
  destruct Hc as [Hls [Hl3 _]].
  eexists; exists ls. split; [reflexivity|]. split; [reflexivity|].
  simpl. rewrite Hl3. unfold JsMap.values. rewrite map_app, filter_app.
  rewrite map_map. simpl. rewrite map_id.
  split; [|split].
  - rewrite (filter_values_none z); [|intros p Hp; apply Hm', Hp].
    rewrite Hls. simpl. apply filter_new_items.
  - rewrite Hls. apply new_items_fields.
  - intros li Hin Hz Hin'. apply in_app_or in Hin' as [Hin'|Hin'].
    + apply in_map_iff in Hin' as [p [<- Hp]]. apply Hm' in Hp as [_ Hp]. exact (Hp Hz).
    + rewrite Hls in Hin'. apply new_items_ids in Hin' as [_ Hge].
      apply in_map_iff in Hin as [p [<- Hp]].
      specialize (Hli p Hp). lia.
Qed.


(** ** Invoice-number lemmas *)

Module InvoiceNumberFacts.
Import InvoiceNumber.

Lemma decimal_acc_app a s1 s2 :
  decimal_acc a (s1 ++ s2) = decimal_acc (decimal_acc a s1) s2.
Proof. revert a. induction s1 as [|c r IH]; intros a; simpl; [reflexivity|apply IH]. Qed.

Lemma decimal_acc_shift a s :
  decimal_acc a s = a * 10 ^ Z.of_nat (String.length s) + decimal_acc 0 s.
Proof.
  revert a. induction s as [|c r IH]; intros a; cbn [decimal_acc String.length].
  - simpl. lia.
  - rewrite (IH (a * 10 + _)), (IH (0 * 10 + _)).
    rewrite Nat2Z.inj_succ, Z.pow_succ_r by lia. lia.
Qed.

Lemma digit_char_code d :
  0 <= d < 10 -> Z.of_nat (Ascii.nat_of_ascii (digit_char d)) = 48 + d.
Proof.
  intros Hd. unfold digit_char. rewrite Ascii.nat_ascii_embedding by lia. lia.
Qed.

Lemma decimal_acc_cons a c r :
  decimal_acc a (String c r) = decimal_acc (a * 10 + (Z.of_nat (Ascii.nat_of_ascii c) - 48)) r.
Proof. reflexivity. Qed.

Lemma length_cons c r : String.length (String c r) = S (String.length r).
Proof. reflexivity. Qed.

Lemma digits_of_S f n acc :
  digits_of (S f) n acc =
  if n <? 10 then String (digit_char (n mod 10)) acc
  else digits_of f (n / 10) (String (digit_char (n mod 10)) acc).
Proof. reflexivity. Qed.

Lemma digits_of_value (fuel : nat) :
  forall n acc, 0 <= n -> n < 10 ^ Z.of_nat fuel ->
    decimal_value (digits_of fuel n acc)
    = n * 10 ^ Z.of_nat (String.length acc) + decimal_value acc.
Proof.
  unfold decimal_value.
  induction fuel as [|f IH]; intros n acc Hn Hlt.
  - change (10 ^ Z.of_nat 0) with 1 in Hlt. assert (n = 0) by lia. subst n.
    reflexivity.
  - assert (Hm : 0 <= n mod 10 < 10) by (apply Z.mod_pos_bound; lia).
    rewrite digits_of_S.
    destruct (n <? 10) eqn:Hs.
    + apply Z.ltb_lt in Hs. rewrite decimal_acc_cons, decimal_acc_shift.
      rewrite digit_char_code by exact Hm. rewrite Z.mod_small by lia. lia.
    + apply Z.ltb_ge in Hs. rewrite IH.
      * rewrite length_cons, decimal_acc_cons, (decimal_acc_shift (0 * 10 + _)).
        rewrite digit_char_code by exact Hm.
        rewrite Nat2Z.inj_succ, Z.pow_succ_r by lia.
        pose proof (Z.div_mod n 10 ltac:(lia)).
        set (q := n / 10) in *. set (rm := n mod 10) in *.
        set (P := 10 ^ Z.of_nat (String.length acc)) in *.
        set (D := decimal_acc 0 acc) in *.
        replace (0 * 10 + (48 + rm - 48)) with rm by lia.
        rewrite H. ring.
      * apply Z.div_pos; lia.
      * rewrite Nat2Z.inj_succ, Z.pow_succ_r in Hlt by lia.
        apply Z.div_lt_upper_bound; lia.
Qed.

Lemma digits_of_all_digits (fuel : nat) :
  forall n acc, 0 <= n -> all_digits acc = true ->
    all_digits (digits_of fuel n acc) = true.
Proof.
  induction fuel as [|f IH]; intros n acc Hn Hacc; [exact Hacc|].
  rewrite digits_of_S.
  assert (Hm : 0 <= n mod 10 < 10) by (apply Z.mod_pos_bound; lia).
  assert (Hc : is_digit (digit_char (n mod 10)) = true).
  { unfold is_digit. pose proof (digit_char_code _ Hm) as E.
    apply andb_true_intro; split; apply Nat.leb_le; lia. }
  assert (Hs : all_digits (String (digit_char (n mod 10)) acc) = true).
  { change (is_digit (digit_char (n mod 10)) && all_digits acc = true).
    rewrite Hc, Hacc. reflexivity. }
  destruct (n <? 10); [exact Hs|].
  apply IH; [apply Z.div_pos; lia|exact Hs].
Qed.

Lemma digits_of_length (fuel : nat) :
  forall n acc, (String.length acc < String.length (digits_of (S fuel) n acc))%nat.
Proof.
  induction fuel as [|f IH]; intros n acc; rewrite digits_of_S.
  - destruct (n <? 10); cbn [digits_of]; rewrite length_cons; lia.
  - destruct (n <? 10); [rewrite length_cons; lia|].
    specialize (IH (n / 10) (String (digit_char (n mod 10)) acc)).
    rewrite length_cons in IH. lia.
Qed.

Lemma digits_fuel_enough n : 0 <= n -> n < 10 ^ Z.of_nat (digits_fuel n).
Proof.
  intros Hn. unfold digits_fuel. rewrite Nat2Z.inj_succ, Z2Nat.id by apply Z.log2_nonneg.
  destruct (Z.eq_dec n 0) as [->|Hnz]; [simpl; lia|].
  destruct (Z.log2_spec n ltac:(lia)) as [_ Hup].
  eapply Z.lt_le_trans; [exact Hup|].
  apply Z.pow_le_mono_l. split; [lia|lia].
Qed.

Lemma concat_cons_empty (x : string) (l : list string) :
  String.concat "" (x :: l) = (x ++ String.concat "" l)%string.
Proof.
  destruct l as [|y r]; [|reflexivity].
  simpl. induction x as [|c x IH]; simpl; [reflexivity|]. rewrite <- IH. reflexivity.
Qed.

Lemma zeros_facts (k : nat) :
  let zs := String.concat "" (repeat "0"%string k) in
  decimal_acc 0 zs = 0 /\ all_digits zs = true /\ String.length zs = k.
Proof.
  induction k as [|k IH]; cbn zeta; [repeat split|].
  cbn [repeat]. rewrite concat_cons_empty. destruct IH as [H1 [H2 H3]].
  cbn [append decimal_acc all_digits String.length].
  rewrite decimal_acc_shift, H1, H2, H3. repeat split.
Qed.

Lemma all_digits_app s1 s2 :
  all_digits (s1 ++ s2) = all_digits s1 && all_digits s2.
Proof.
  induction s1 as [|c r IH]; simpl; [reflexivity|]. rewrite IH. apply andb_assoc.
Qed.

Lemma length_app s1 s2 :
  String.length (s1 ++ s2) = (String.length s1 + String.length s2)%nat.
Proof. induction s1 as [|c r IH]; simpl; [reflexivity|]. rewrite IH. reflexivity. Qed.

Lemma padStart_facts s :
  all_digits s = true ->
  decimal_value (padStart s 3) = decimal_value s /\
  all_digits (padStart s 3) = true /\
  (3 <= String.length (padStart s 3))%nat.
Proof.
  intros Hs. unfold padStart, decimal_value.
  destruct (zeros_facts (3 - String.length s)) as [H1 [H2 H3]].
  rewrite decimal_acc_app, H1, all_digits_app, H2, Hs, length_app, H3.
  repeat split. lia.
Qed.

Lemma js_int_toString_facts n :
  0 <= n ->
  all_digits (js_int_toString n) = true /\ decimal_value (js_int_toString n) = n.
Proof.
  intros Hn. unfold js_int_toString.
  destruct (n <? 0) eqn:E; [apply Z.ltb_lt in E; lia|].
  split.
  - apply digits_of_all_digits; [exact Hn|reflexivity].
  - rewrite digits_of_value; [simpl; unfold decimal_value; simpl; lia|exact Hn|].
    apply digits_fuel_enough, Hn.
Qed.

Lemma last_segment_app s1 s2 cur :
  last_segment (s1 ++ s2) cur = last_segment s2 (last_segment s1 cur).
Proof.
  revert cur. induction s1 as [|c r IH]; intros cur; simpl; [reflexivity|].
  destruct (Ascii.eqb c _); apply IH.
Qed.

Lemma last_segment_digits s cur :
  all_digits s = true -> last_segment s cur = (cur ++ s)%string.
Proof.
  revert cur. induction s as [|c r IH]; intros cur Hs; simpl.
  - induction cur as [|x cur IHc]; simpl; [reflexivity|]. rewrite <- IHc. reflexivity.
  - simpl in Hs. apply andb_prop in Hs as [Hc Hr].
    assert (Hne : Ascii.eqb c (Ascii.ascii_of_nat 45) = false).
    { destruct (Ascii.eqb_spec c (Ascii.ascii_of_nat 45)) as [->|_]; [|reflexivity].
      discriminate Hc. }
    rewrite Hne, IH by exact Hr.
    clear. induction cur as [|x cur IH]; simpl; [reflexivity|]. rewrite IH. reflexivity.
Qed.

Lemma format_facts year n :
  0 <= n ->
  let p := padStart (js_int_toString n) 3 in
  format year n = ("INV-" ++ js_int_toString year ++ "-" ++ p)%string /\
  all_digits p = true /\ (3 <= String.length p)%nat /\ decimal_value p = n /\
  seq_of (format year n) = n.
Proof.
  intros Hn p.
  destruct (js_int_toString_facts n Hn) as [Hd Hv].
  destruct (padStart_facts _ Hd) as [Pv [Pd Pl]].
  fold p in Pv, Pd, Pl.
  assert (Hval : decimal_value p = n) by (rewrite Pv; exact Hv).
  repeat split; try assumption.
  unfold seq_of, format. fold p.
  rewrite !last_segment_app.
  change ("-" ++ p)%string with (String (Ascii.ascii_of_nat 45) p).
  cbn [last_segment]. rewrite Ascii.eqb_refl.
  rewrite last_segment_digits by exact Pd. exact Hval.
Qed.


Lemma generate_many_spec (years : list Z) :
  forall w, let '(ns, w') := generate_many years w in
    List.length ns = List.length years /\
    (forall i y, nth_error years i = Some y ->
       nth_error ns i = Some (format y (currentInvoiceNumber (store w) + Z.of_nat i))) /\
    currentInvoiceNumber (store w') =
      currentInvoiceNumber (store w) + Z.of_nat (List.length years).
Proof.
  induction years as [|y ys IH]; intros w.
  - cbn. split; [reflexivity|]. split; [|lia]. intros [|i] y' H; discriminate H.
  - cbn [generate_many]. unfold bind at 1, generateInvoiceNumber, storage_op.
    cbn [store]. unfold bind.
    set (w1 := mkWorld _ _).
    specialize (IH w1). destruct (generate_many ys w1) as [ns w2] eqn:E.
    destruct IH as [Hl [Hn Hc]]. cbn [ret List.length].
    subst w1. cbn [store currentInvoiceNumber] in Hn, Hc.
    split; [rewrite Hl; reflexivity|]. split.
    + intros [|i] y' H; cbn [nth_error] in H |- *.
      * injection H as <-. rewrite Z.add_0_r. reflexivity.
      * rewrite (Hn i y' H). do 2 f_equal. lia.
    + rewrite Hc. lia.
Qed.

End InvoiceNumberFacts.

(** C5: successive calls to [generateInvoiceNumber] (one per element of
    [years], the year [new Date().getFullYear()] at that call), started
    from a non-negative counter [c0], return the strings
    [INV-<year>-<p>] where [p] is a string of at least 3 decimal digits
    whose value is [c0 + i] for the [i]-th call; the sequence number read
    back from a later call is strictly greater than from an earlier one,
    and no two calls return the same string.  (The counter is an
    unbounded integer here; in JavaScript it is exact up to [2^53].) *)
Theorem invoice_numbers_format_increasing (years : list Z) (w : World)
  (Hc : 0 <= currentInvoiceNumber (store w)) :
  let c0 := currentInvoiceNumber (store w) in
  let ns := fst (InvoiceNumber.generate_many years w) in
  List.length ns = List.length years /\
  (forall i y, nth_error years i = Some y ->
     exists p, nth_error ns i =
                 Some ("INV-" ++ InvoiceNumber.js_int_toString y ++ "-" ++ p)%string /\
               InvoiceNumber.all_digits p = true /\ (3 <= String.length p)%nat /\
               InvoiceNumber.decimal_value p = c0 + Z.of_nat i /\
               InvoiceNumber.seq_of ("INV-" ++ InvoiceNumber.js_int_toString y ++ "-" ++ p)%string
                 = c0 + Z.of_nat i) /\
  (forall i j s t, (i < j)%nat -> nth_error ns i = Some s -> nth_error ns j = Some t ->
     InvoiceNumber.seq_of s < InvoiceNumber.seq_of t) /\
  NoDup ns.
Proof.
  intros c0 ns.
  pose proof (InvoiceNumberFacts.generate_many_spec years w) as G.
  subst ns. destruct (InvoiceNumber.generate_many years w) as [ns w'].
  cbn [fst]. destruct G as [Hl [Hn _]]. fold c0 in Hn.
  assert (Hseq : forall i s, nth_error ns i = Some s ->
            InvoiceNumber.seq_of s = c0 + Z.of_nat i).
  { intros i s Hs.
    destruct (nth_error years i) as [y|] eqn:Ey.
    - rewrite (Hn i y Ey) in Hs. injection Hs as <-.
      apply (InvoiceNumberFacts.format_facts y); lia.
    - apply nth_error_None in Ey. rewrite <- Hl in Ey.
      apply nth_error_None in Ey. congruence. }
  split; [exact Hl|]. split; [|split].
  - intros i y Hy. rewrite (Hn i y Hy).
    destruct (InvoiceNumberFacts.format_facts y (c0 + Z.of_nat i) ltac:(lia))
      as [Hf [Hd [Hlen [Hv Hs]]]].
    eexists. split; [rewrite Hf; reflexivity|].
    rewrite <- Hf. repeat split; assumption.
  - intros i j s t Hij Hs Ht. rewrite (Hseq i s Hs), (Hseq j t Ht). lia.
  - apply NoDup_nth_error. intros i j Hi Heq.
    destruct (nth_error ns i) as [s|] eqn:Es;
      [|apply nth_error_None in Es; lia].
    symmetry in Heq.
    pose proof (Hseq i s Es). pose proof (Hseq j s Heq). lia.
Qed.

(** ** Money-field lemmas *)

Lemma Forall_set {V} (P : V -> Prop) k v (m : JsMap.t V) :
  Forall (fun p => P (snd p)) m -> P v -> Forall (fun p => P (snd p)) (JsMap.set k v m).
Proof.
  intros Hm Hv. induction Hm as [|[k' v'] r Hx Hr IH]; simpl; [constructor; auto|].
  destruct (Z.eqb k k'); constructor; auto.
Qed.

Lemma Forall_get {V} (P : V -> Prop) z v (m : JsMap.t V) :
  Forall (fun p => P (snd p)) m -> JsMap.get z m = Some v -> P v.
Proof.
  intros Hm Hg. apply get_in in Hg. rewrite Forall_forall in Hm. exact (Hm _ Hg).
Qed.

Lemma Forall_delete {V} (P : V -> Prop) k (m : JsMap.t V) :
  Forall (fun p => P (snd p)) m -> Forall (fun p => P (snd p)) (JsMap.delete k m).
Proof.
  intros Hm. unfold JsMap.delete. rewrite Forall_forall in *.
  intros p Hp. apply filter_In in Hp as [Hp _]. exact (Hm p Hp).
Qed.

Lemma mapM_createLineItem_invoices z (l : list FormLineItem) :
  forall w ls w',
    mapM (fun item => Storage.createLineItem (line_item_of z item)) l w = (ls, w') ->
    invoices (store w') = invoices (store w).
Proof.
  induction l as [|it r IH]; intros w ls w' E; cbn [mapM] in E.
  - injection E as _ <-. reflexivity.
  - destruct w as [st cs]. rewrite bind_apply, createLineItem_apply in E.
    cbv beta iota in E. rewrite bind_apply in E.
    destruct (mapM _ r _) as [ls2 w2] eqn:E2.
    injection E as _ <-. apply IH in E2. rewrite E2. reflexivity.
Qed.

Lemma set_status_totals_ok now e s : totals_ok e -> totals_ok (Storage.set_status now e s).
Proof. unfold totals_ok. simpl. auto. Qed.

Lemma create_totals_ok userId now body w :
  store_totals_ok (store w) ->
  store_totals_ok (store (snd (Routes.createInvoice userId now body w))).
Proof.
  intros H. destruct w as [st cs]. unfold Routes.createInvoice.
  destruct (invoiceFormSchema body) as [v|l]; [|exact H].
  run_handler. unfold Storage.createInvoice, storage_op. cbn [store calls].
  destruct (negb _); [exact H|].
  cbv beta zeta iota delta [compute_totals].
  destruct (mapM _ _ _) as [ls w'] eqn:E.
  apply mapM_createLineItem_invoices in E. unfold store_totals_ok.
  cbn [snd]. rewrite E. cbn [store invoices with_invoices].
  apply Forall_set; [exact H|reflexivity].
Qed.

Lemma update_totals_ok userId now id body w :
  store_totals_ok (store w) ->
  store_totals_ok (store (snd (Routes.updateInvoice userId now id body w))).
Proof.
  intros H. destruct w as [st cs]. unfold Routes.updateInvoice.
  destruct (invoiceFormSchema body) as [v|l]; [|exact H].
  run_handler. cbn [store calls].
  destruct (key_get (JsNumber.float_key id) (invoices st)) as [e|] eqn:Hg; [|exact H].
  destruct (negb (Z.eqb _ _)); [exact H|].
  destruct (negb (client_owned _ _)); [exact H|].
  cbv beta zeta iota delta [compute_totals]. cbn [store calls].
  destruct (JsNumber.float_key id) as [z|]; [|exact H].
  cbn [key_get] in Hg |- *. rewrite Hg.
  cbn [store calls with_lineItems with_invoices].
  destruct (mapM _ _ _) as [ls w'] eqn:E.
  apply mapM_createLineItem_invoices in E. unfold store_totals_ok.
  cbn [snd]. rewrite E. cbn [store invoices].
  apply Forall_set; [exact H|reflexivity].
Qed.

Lemma status_totals_ok userId now id status w :
  store_totals_ok (store w) ->
  store_totals_ok (store (snd (Routes.updateInvoiceStatus userId now id status w))).
Proof.
  intros H. destruct w as [st cs]. unfold Routes.updateInvoiceStatus.
  run_handler. cbn [store calls].
  destruct (key_get (JsNumber.float_key id) (invoices st)) as [e|] eqn:Hg; [|exact H].
  destruct (negb (Z.eqb _ _)); [exact H|].
  destruct (Routes.valid_status status); [|exact H].
  cbn [store calls].
  destruct (JsNumber.float_key id) as [z|]; [|exact H].
  cbn [key_get] in Hg |- *. rewrite Hg.
  unfold store_totals_ok. cbn [snd store invoices with_invoices].
  apply Forall_set; [exact H|].
  apply set_status_totals_ok. exact (Forall_get _ _ _ _ H Hg).
Qed.

Lemma delete_totals_ok userId id w :
  store_totals_ok (store w) ->
  store_totals_ok (store (snd (Routes.deleteInvoice userId id w))).
Proof.
  intros H. destruct w as [st cs]. unfold Routes.deleteInvoice.
  run_handler. cbn [store calls].
  destruct (key_get (JsNumber.float_key id) (invoices st)) as [e|]; [|exact H].
  destruct (negb (Z.eqb _ _)); [exact H|].
  cbn [store calls with_lineItems].
  destruct (JsNumber.float_key id) as [z|]; [|exact H].
  unfold store_totals_ok. cbn [snd store invoices with_invoices].
  apply Forall_delete. exact H.
Qed.

Lemma get_set_same {V} k (v : V) (m : JsMap.t V) : JsMap.get k (JsMap.set k v m) = Some v.
Proof.
  induction m as [|[k' v'] r IH]; simpl; [rewrite Z.eqb_refl; reflexivity|].
  destruct (Z.eqb_spec k k') as [->|Hne]; simpl; [rewrite Z.eqb_refl; reflexivity|].
  apply Z.eqb_neq in Hne. rewrite Hne. exact IH.
Qed.

Lemma initial_totals_ok t0 : store_totals_ok (Sample.initial_store t0).
Proof. unfold store_totals_ok. vm_compute. repeat constructor. Qed.

(** C1 (counterexample): the handlers do not round.  Creating an invoice
    for client 1 with one line item of amount 1 at tax rate 12.5 stores the
    tax amount [0.125] (its [toString()] is ["0.125"]), not the rounded
    [0.13]: the specified rounded totals do not hold for every created
    invoice. *)
Lemma totals_not_rounded_counterexample :
  ~ (forall userId now body w v,
       invoiceFormSchema body = Zod.Ok v ->
       match fst (Routes.createInvoice userId now body w) with
       | RJson _ (PInvoiceLines (Some inv) _) =>
           totals_rounded_as_spec (JsNumber.value (f_taxRate v))
             (map (fun it => JsNumber.value (fl_amount it)) (f_lineItems v)) inv = true
       | _ => True
       end).
Proof.
  intros H.
  specialize (H 1 0 (one_item_body 12.5%float 1%float) (Sample.initial_world 0)
                (one_item_form 12.5%float 1%float) ltac:(vm_compute; reflexivity)).
  vm_compute in H. discriminate H.
Qed.

(** C1 (as amended): when the body passes the form schema and names a
    client of the user, create answers 201 and stores an invoice whose
    [subtotal], [taxAmount] and [total] are the unrounded doubles
    [compute_totals] gives: the left-to-right double sum of the amounts,
    [(subtotal * taxRate) / 100] and [subtotal + taxAmount] (each persisted
    as its [toString()]); update of an invoice of the user stores the same
    unrounded totals. *)
Theorem totals_stored_unrounded :
  forall userId now body w v,
    invoiceFormSchema body = Zod.Ok v ->
    client_owned userId (key_get (JsNumber.float_key (f_clientId v)) (clients (store w))) = true ->
    (let '(r, w') := Routes.createInvoice userId now body w in
     exists inv ls,
       r = RJson 201 (PInvoiceLines (Some inv) ls) /\
       (inv_subtotal inv, inv_taxAmount inv, inv_total inv)
         = compute_totals (f_lineItems v) (f_taxRate v) /\
       JsMap.get (inv_id inv) (invoices (store w')) = Some inv) /\
    (forall id e,
       key_get (JsNumber.float_key id) (invoices (store w)) = Some e ->
       inv_userId e = userId ->
       let '(r, w') := Routes.updateInvoice userId now id body w in
       exists inv ls,
         r = RJson 200 (PInvoiceLines (Some inv) ls) /\
         (inv_subtotal inv, inv_taxAmount inv, inv_total inv)
           = compute_totals (f_lineItems v) (f_taxRate v) /\
         key_get (JsNumber.float_key id) (invoices (store w')) = Some inv).
Proof.
  intros userId now body w v Hv Hcl. destruct w as [st cs]. cbn [store] in Hcl.
  split.
  - unfold Routes.createInvoice. rewrite Hv.
    run_handler. unfold Storage.createInvoice, storage_op. cbn [store calls].
    rewrite Hcl. cbn [negb].
    unfold compute_totals.
    destruct (mapM _ _ _) as [ls w'] eqn:E.
    apply mapM_createLineItem_invoices in E.
    eexists; exists ls. split; [reflexivity|]. split; [reflexivity|].
    rewrite E. cbn [store invoices with_invoices inv_id]. apply get_set_same.
  - intros id e Hg Ho. unfold Routes.updateInvoice. rewrite Hv.
    run_handler. cbn [store calls] in Hg |- *. rewrite Hg.
    subst userId. rewrite Z.eqb_refl. cbn [negb store calls]. rewrite Hcl. cbn [negb].
    unfold compute_totals. cbn [store calls].
    destruct (JsNumber.float_key id) as [z|]; [|discriminate Hg].
    cbn [key_get] in Hg |- *. rewrite Hg.
    cbn [store calls with_lineItems with_invoices].
    destruct (mapM _ _ _) as [ls w'] eqn:E.
    apply mapM_createLineItem_invoices in E.
    eexists; exists ls. split; [reflexivity|]. split; [reflexivity|].
    rewrite E. cbn [store invoices]. apply get_set_same.
Qed.

Lemma totals_stored_unrounded_witness :
  invoiceFormSchema (one_item_body 12.5%float 1%float) = Zod.Ok (one_item_form 12.5%float 1%float) /\
  client_owned 1 (key_get (JsNumber.float_key (f_clientId (one_item_form 12.5%float 1%float)))
                    (clients (store (Sample.initial_world 0)))) = true /\
  (let '(r, w') := Routes.createInvoice 1 0 (one_item_body 12.5%float 1%float) (Sample.initial_world 0) in
   exists inv ls,
     r = RJson 201 (PInvoiceLines (Some inv) ls) /\
     (inv_subtotal inv, inv_taxAmount inv, inv_total inv)
       = compute_totals (f_lineItems (one_item_form 12.5%float 1%float))
           (f_taxRate (one_item_form 12.5%float 1%float)) /\
     JsMap.get (inv_id inv) (invoices (store w')) = Some inv) /\
  (forall id e,
     key_get (JsNumber.float_key id) (invoices (store (Sample.initial_world 0))) = Some e ->
     inv_userId e = 1 ->
     let '(r, w') := Routes.updateInvoice 1 0 id (one_item_body 12.5%float 1%float)
                       (Sample.initial_world 0) in
     exists inv ls,
       r = RJson 200 (PInvoiceLines (Some inv) ls) /\
       (inv_subtotal inv, inv_taxAmount inv, inv_total inv)
         = compute_totals (f_lineItems (one_item_form 12.5%float 1%float))
             (f_taxRate (one_item_form 12.5%float 1%float)) /\
       key_get (JsNumber.float_key id) (invoices (store w')) = Some inv).
Proof.
  assert (Hv : invoiceFormSchema (one_item_body 12.5%float 1%float)
               = Zod.Ok (one_item_form 12.5%float 1%float)) by (vm_compute; reflexivity).
  assert (Hc : client_owned 1 (key_get (JsNumber.float_key (f_clientId (one_item_form 12.5%float 1%float)))
                    (clients (store (Sample.initial_world 0)))) = true) by (vm_compute; reflexivity).
  split; [exact Hv|]. split; [exact Hc|].
  exact (totals_stored_unrounded 1 0 _ (Sample.initial_world 0) _ Hv Hc).
Defined.

(** C2 (counterexample): the stored decimal strings need not satisfy
    [total == subtotal + taxAmount] as numbers.  From the initial store
    (where they do), creating an invoice with one item of amount [0.2] at
    tax rate 50 stores ["0.2"], ["0.1"] and ["0.30000000000000004"]. *)
Lemma decimal_totals_counterexample :
  ~ (forall userId now body w,
       store_decimals_ok (store w) = true ->
       store_decimals_ok (store (snd (Routes.createInvoice userId now body w))) = true).
Proof.
  intros H.
  specialize (H 1 0 (one_item_body 50%float 0.2%float) (Sample.initial_world 0)
                ltac:(vm_compute; reflexivity)).
  vm_compute in H. discriminate H.
Qed.

(** C2 (as amended): every write (create, update, status update, and
    delete) preserves the property that each stored invoice's [total] is
    the double [subtotal + taxAmount] of its stored [subtotal] and
    [taxAmount]; the initial store has it ([initial_totals_ok]). *)
Theorem stored_total_is_double_sum :
  forall w, store_totals_ok (store w) ->
    (forall userId now body,
       store_totals_ok (store (snd (Routes.createInvoice userId now body w)))) /\
    (forall userId now id body,
       store_totals_ok (store (snd (Routes.updateInvoice userId now id body w)))) /\
    (forall userId now id status,
       store_totals_ok (store (snd (Routes.updateInvoiceStatus userId now id status w)))) /\
    (forall userId id,
       store_totals_ok (store (snd (Routes.deleteInvoice userId id w)))).
Proof.
  intros w H. split; [|split; [|split]]; intros.
  - apply create_totals_ok, H.
  - apply update_totals_ok, H.
  - apply status_totals_ok, H.
  - apply delete_totals_ok, H.
Qed.

Lemma stored_total_is_double_sum_witness :
  store_totals_ok (store (Sample.initial_world 0)) /\
  (forall userId now body,
     store_totals_ok (store (snd (Routes.createInvoice userId now body (Sample.initial_world 0))))) /\
  (forall userId now id body,
     store_totals_ok (store (snd (Routes.updateInvoice userId now id body (Sample.initial_world 0))))) /\
  (forall userId now id status,
     store_totals_ok (store (snd (Routes.updateInvoiceStatus userId now id status
                                   (Sample.initial_world 0))))) /\
  (forall userId id,
     store_totals_ok (store (snd (Routes.deleteInvoice userId id (Sample.initial_world 0))))).
Proof.
  assert (H : store_totals_ok (store (Sample.initial_world 0)))
    by (unfold store_totals_ok; vm_compute; repeat constructor).
  split; [exact H|]. exact (stored_total_is_double_sum _ H).
Defined.

(** ** Witnesses at the initial store *)

Lemma status_update_rejects_unknown_status_witness :
  key_get (JsNumber.float_key 1%float) (invoices (store (Sample.initial_world 0)))
    = Some (Sample.invoice 1 1 "INV-2023-041" "paid" 2023 2 14 2400%float
              "Thank you for your business!") /\
  inv_userId (Sample.invoice 1 1 "INV-2023-041" "paid" 2023 2 14 2400%float
                "Thank you for your business!") = 1 /\
  ~ In "void"%string InvoiceStatus /\
  (let '(r, w') := Routes.updateInvoiceStatus 1 7 1%float (Some (JStr "void"))
                     (Sample.initial_world 0) in
   r = RMessage 400 "Invalid status" /\ store w' = store (Sample.initial_world 0)).
Proof.
  assert (H1 : key_get (JsNumber.float_key 1%float) (invoices (store (Sample.initial_world 0)))
    = Some (Sample.invoice 1 1 "INV-2023-041" "paid" 2023 2 14 2400%float
              "Thank you for your business!")) by (vm_compute; reflexivity).
  assert (H2 : inv_userId (Sample.invoice 1 1 "INV-2023-041" "paid" 2023 2 14 2400%float
                "Thank you for your business!") = 1) by reflexivity.
  assert (H3 : ~ In "void"%string InvoiceStatus)
    by (simpl; intros H; repeat destruct H as [H|H]; discriminate H || exact H).
  split; [exact H1|split; [exact H2|split; [exact H3|]]].
  exact (status_update_rejects_unknown_status 1 7 1%float _ _ "void" H1 H2 H3).
Defined.

Lemma create_rejects_empty_line_items_witness :
  field "lineItems" [("clientId", JNum 1%float); ("lineItems", JArr [])]%string = Some (JArr []) /\
  exists l, Routes.createInvoice 1 7
              (Some (JObj [("clientId", JNum 1%float); ("lineItems", JArr [])]%string))
              (Sample.initial_world 0)
            = (RMessage 400 (fromZodError_message l), Sample.initial_world 0).
Proof.
  assert (H : field "lineItems" [("clientId", JNum 1%float); ("lineItems", JArr [])]%string
              = Some (JArr [])) by reflexivity.
  split; [exact H|].
  exact (create_rejects_empty_line_items 1 7 _ (Sample.initial_world 0) H).
Defined.

Lemma invoice_numbers_format_increasing_witness :
  0 <= currentInvoiceNumber (store (Sample.initial_world 0)) /\
  (let c0 := currentInvoiceNumber (store (Sample.initial_world 0)) in
   let ns := fst (InvoiceNumber.generate_many [2024; 2024; 2025] (Sample.initial_world 0)) in
   List.length ns = List.length [2024; 2024; 2025] /\
   (forall i y, nth_error [2024; 2024; 2025] i = Some y ->
      exists p, nth_error ns i =
                  Some ("INV-" ++ InvoiceNumber.js_int_toString y ++ "-" ++ p)%string /\
                InvoiceNumber.all_digits p = true /\ (3 <= String.length p)%nat /\
                InvoiceNumber.decimal_value p = c0 + Z.of_nat i /\
                InvoiceNumber.seq_of ("INV-" ++ InvoiceNumber.js_int_toString y ++ "-" ++ p)%string
                  = c0 + Z.of_nat i) /\
   (forall i j s t, (i < j)%nat -> nth_error ns i = Some s -> nth_error ns j = Some t ->
      InvoiceNumber.seq_of s < InvoiceNumber.seq_of t) /\
   NoDup ns).
Proof.
  assert (H : 0 <= currentInvoiceNumber (store (Sample.initial_world 0))) by (simpl; lia).
  split; [exact H|].
  exact (invoice_numbers_format_increasing [2024; 2024; 2025] _ H).
Defined.

Lemma update_replaces_line_items_witness :
  wf_store (store (Sample.initial_world 0)) = true /\
  invoiceFormSchema (one_item_body 12.5%float 1%float) = Zod.Ok (one_item_form 12.5%float 1%float) /\
  key_get (JsNumber.float_key 1%float) (invoices (store (Sample.initial_world 0)))
    = Some (Sample.invoice 1 1 "INV-2023-041" "paid" 2023 2 14 2400%float
              "Thank you for your business!") /\
  inv_userId (Sample.invoice 1 1 "INV-2023-041" "paid" 2023 2 14 2400%float
                "Thank you for your business!") = 1 /\
  client_owned 1 (key_get (JsNumber.float_key (f_clientId (one_item_form 12.5%float 1%float)))
                    (clients (store (Sample.initial_world 0)))) = true /\
  (let e := Sample.invoice 1 1 "INV-2023-041" "paid" 2023 2 14 2400%float
              "Thank you for your business!" in
   let '(r, w') := Routes.updateInvoice 1 7 1%float (one_item_body 12.5%float 1%float)
                     (Sample.initial_world 0) in
   exists i ls,
     r = RJson 200 (PInvoiceLines (Some i) ls) /\ inv_id i = inv_id e /\
     fst (Storage.getLineItemsByInvoiceId (Some (inv_id e)) w') = ls /\
     map (fun li => (li_invoiceId li, li_description li, li_quantity li, li_rate li,
                     li_amount li)) ls
     = map (fun it => (inv_id e, fl_description it, fl_quantity it, fl_rate it,
                       fl_amount it)) (f_lineItems (one_item_form 12.5%float 1%float)) /\
     (forall li, In li (JsMap.values (lineItems (store (Sample.initial_world 0)))) ->
        li_invoiceId li = inv_id e ->
        ~ In li (JsMap.values (lineItems (store w'))))).
Proof.
  assert (H0 : wf_store (store (Sample.initial_world 0)) = true) by (vm_compute; reflexivity).
  assert (Hv : invoiceFormSchema (one_item_body 12.5%float 1%float)
               = Zod.Ok (one_item_form 12.5%float 1%float)) by (vm_compute; reflexivity).
  assert (H1 : key_get (JsNumber.float_key 1%float) (invoices (store (Sample.initial_world 0)))
    = Some (Sample.invoice 1 1 "INV-2023-041" "paid" 2023 2 14 2400%float
              "Thank you for your business!")) by (vm_compute; reflexivity).
  assert (H2 : inv_userId (Sample.invoice 1 1 "INV-2023-041" "paid" 2023 2 14 2400%float
                "Thank you for your business!") = 1) by reflexivity.
  assert (Hc : client_owned 1 (key_get (JsNumber.float_key (f_clientId (one_item_form 12.5%float 1%float)))
                    (clients (store (Sample.initial_world 0)))) = true) by (vm_compute; reflexivity).
  split; [exact H0|split; [exact Hv|split; [exact H1|split; [exact H2|split; [exact Hc|]]]]].
  exact (update_replaces_line_items 1 7 1%float _ (Sample.initial_world 0) _ _ H0 Hv H1 H2 Hc).
Defined.

Lemma delete_invoice_removes_line_items_witness :
  wf_store (store (Sample.initial_world 0)) = true /\
  key_get (JsNumber.float_key 1%float) (invoices (store (Sample.initial_world 0)))
    = Some (Sample.invoice 1 1 "INV-2023-041" "paid" 2023 2 14 2400%float
              "Thank you for your business!") /\
  inv_userId (Sample.invoice 1 1 "INV-2023-041" "paid" 2023 2 14 2400%float
                "Thank you for your business!") = 1 /\
  (let '(r, w') := Routes.deleteInvoice 1 1%float (Sample.initial_world 0) in
   r = RNoContent /\
   fst (Storage.getLineItemsByInvoiceId (Some 1) w') = [] /\
   (forall li, In li (JsMap.values (lineItems (store w'))) -> li_invoiceId li <> 1) /\
   key_get (JsNumber.float_key 1%float) (invoices (store w')) = None).
Proof.
  assert (H0 : wf_store (store (Sample.initial_world 0)) = true) by (vm_compute; reflexivity).
  assert (H1 : key_get (JsNumber.float_key 1%float) (invoices (store (Sample.initial_world 0)))
    = Some (Sample.invoice 1 1 "INV-2023-041" "paid" 2023 2 14 2400%float
              "Thank you for your business!")) by (vm_compute; reflexivity).
  assert (H2 : inv_userId (Sample.invoice 1 1 "INV-2023-041" "paid" 2023 2 14 2400%float
                "Thank you for your business!") = 1) by reflexivity.
  split; [exact H0|split; [exact H1|split; [exact H2|]]].
  exact (delete_invoice_removes_line_items 1 1%float _ _ H0 H1 H2).
Defined.

Lemma status_update_frame_witness :
  key_get (JsNumber.float_key 1%float) (invoices (store (Sample.initial_world 0)))
    = Some (Sample.invoice 1 1 "INV-2023-041" "paid" 2023 2 14 2400%float
              "Thank you for your business!") /\
  inv_userId (Sample.invoice 1 1 "INV-2023-041" "paid" 2023 2 14 2400%float
                "Thank you for your business!") = 1 /\
  In "cancelled"%string InvoiceStatus /\
  (let e := Sample.invoice 1 1 "INV-2023-041" "paid" 2023 2 14 2400%float
              "Thank you for your business!" in
   let w := Sample.initial_world 0 in
   let '(r, w') := Routes.updateInvoiceStatus 1 7 1%float (Some (JStr "cancelled")) w in
   exists z u,
     JsNumber.float_key 1%float = Some z /\
     r = RJson 200 (PInvoice (Some u)) /\
     invoices (store w') = JsMap.set z u (invoices (store w)) /\
     clients (store w') = clients (store w) /\
     lineItems (store w') = lineItems (store w) /\
     inv_status u = "cancelled"%string /\ inv_updatedAt u = DateAt 7 /\
     inv_subtotal u = inv_subtotal e /\ inv_taxAmount u = inv_taxAmount e /\
     inv_total u = inv_total e /\
     inv_id u = inv_id e /\ inv_userId u = inv_userId e /\
     inv_clientId u = inv_clientId e /\
     inv_invoiceNumber u = inv_invoiceNumber e /\
     inv_issueDate u = inv_issueDate e /\ inv_dueDate u = inv_dueDate e /\
     inv_paymentTerms u = inv_paymentTerms e /\
     inv_taxRate u = inv_taxRate e /\ inv_notes u = inv_notes e /\
     inv_createdAt u = inv_createdAt e).
Proof.
  assert (H1 : key_get (JsNumber.float_key 1%float) (invoices (store (Sample.initial_world 0)))
    = Some (Sample.invoice 1 1 "INV-2023-041" "paid" 2023 2 14 2400%float
              "Thank you for your business!")) by (vm_compute; reflexivity).
  assert (H2 : inv_userId (Sample.invoice 1 1 "INV-2023-041" "paid" 2023 2 14 2400%float
                "Thank you for your business!") = 1) by reflexivity.
  assert (H3 : In "cancelled"%string InvoiceStatus)
    by (simpl; right; right; right; right; left; reflexivity).
  split; [exact H1|split; [exact H2|split; [exact H3|]]].
  exact (status_update_frame 1 7 1%float _ _ "cancelled" H1 H2 H3).
Defined.

(** C9 (counterexample): an update of another user's invoice is not
    always answered 403: the body is validated first, so user 2 sending
    the empty object [{}] for invoice 1 (of user 1) gets the 400
    validation error. *)
Lemma foreign_update_not_403_counterexample :
  ~ (forall userId now id body w e,
       key_get (JsNumber.float_key id) (invoices (store w)) = Some e ->
       inv_userId e <> userId ->
       code_of (fst (Routes.updateInvoice userId now id body w)) = 403).
Proof.
  intros H.
  specialize (H 2 7 1%float (Some (JObj [])) (Sample.initial_world 0)
                (Sample.invoice 1 1 "INV-2023-041" "paid" 2023 2 14 2400%float
                   "Thank you for your business!")
                ltac:(vm_compute; reflexivity) ltac:(simpl; lia)).
  vm_compute in H. discriminate H.
Qed.

Lemma foreign_invoice_forbidden_witness :
  key_get (JsNumber.float_key 1%float) (invoices (store (Sample.initial_world 0)))
    = Some (Sample.invoice 1 1 "INV-2023-041" "paid" 2023 2 14 2400%float
              "Thank you for your business!") /\
  inv_userId (Sample.invoice 1 1 "INV-2023-041" "paid" 2023 2 14 2400%float
                "Thank you for your business!") <> 2 /\
  (let w := Sample.initial_world 0 in
   (let '(r, w') := Routes.getInvoiceById 2 1%float w in
    r = RMessage 403 msg_invoice_forbidden /\ store w' = store w) /\
   (forall status,
    let '(r, w') := Routes.updateInvoiceStatus 2 7 1%float status w in
    r = RMessage 403 msg_invoice_forbidden /\ store w' = store w) /\
   (let '(r, w') := Routes.deleteInvoice 2 1%float w in
    r = RMessage 403 msg_invoice_forbidden /\ store w' = store w) /\
   (forall body,
    let '(r, w') := Routes.updateInvoice 2 7 1%float body w in
    r = match invoiceFormSchema body with
        | Zod.Ok _ => RMessage 403 msg_invoice_forbidden
        | Zod.Issues l => RMessage 400 (fromZodError_message l)
        end /\ store w' = store w)).
Proof.
  assert (H1 : key_get (JsNumber.float_key 1%float) (invoices (store (Sample.initial_world 0)))
    = Some (Sample.invoice 1 1 "INV-2023-041" "paid" 2023 2 14 2400%float
              "Thank you for your business!")) by (vm_compute; reflexivity).
  assert (H2 : inv_userId (Sample.invoice 1 1 "INV-2023-041" "paid" 2023 2 14 2400%float
                "Thank you for your business!") <> 2) by (simpl; lia).
  split; [exact H1|split; [exact H2|]].
  exact (foreign_invoice_forbidden 2 7 1%float _ _ H1 H2).
Defined.

(* ================================================================== *)
(** * Properties of the client, user, dashboard, payment and CSV code *)

Lemma get_set_other {V} k k' (v : V) (m : JsMap.t V) :
  k' <> k -> JsMap.get k' (JsMap.set k v m) = JsMap.get k' m.
Proof.
  intros Hne. induction m as [|[k0 x] r IH]; simpl.
  - destruct (Z.eqb_spec k' k); [contradiction|reflexivity].
  - destruct (Z.eqb_spec k k0) as [->|Hk]; simpl.
    + destruct (Z.eqb_spec k' k0); [contradiction|reflexivity].
    + destruct (Z.eqb k' k0); [reflexivity|exact IH].
Qed.

Lemma get_delete_other {V} k k' (m : JsMap.t V) :
  k' <> k -> JsMap.get k' (JsMap.delete k m) = JsMap.get k' m.
Proof.
  intros Hne. unfold JsMap.delete.
  induction m as [|[k0 x] r IH]; simpl; [reflexivity|].
  destruct (Z.eqb_spec k0 k) as [->|Hk]; simpl.
  - destruct (Z.eqb_spec k' k); [contradiction|exact IH].
  - destruct (Z.eqb k' k0); [reflexivity|exact IH].
Qed.

Lemma key_get_some {V} (id : key) (m : JsMap.t V) v :
  key_get id m = Some v -> exists z, id = Some z /\ JsMap.get z m = Some v.
Proof. destruct id as [z|]; simpl; [eauto|discriminate]. Qed.

Lemma mapM_getClient_pairs (l : list Invoice) (w : World) :
  mapM (fun i => c <- Storage.getClient (JsNumber.float_key (inv_clientId i)) ;;
                 ret (i, c)) l w
  = (map (fun i => (i, key_get (JsNumber.float_key (inv_clientId i)) (clients (store w)))) l,
     mkWorld (store w) (calls w ++ repeat "getClient"%string (List.length l))).
Proof.
  revert w. induction l as [|i r IH]; intros w.
  - destruct w as [s cs]. cbn. rewrite app_nil_r. reflexivity.
  - cbv beta delta [mapM bind ret storage_op Storage.getClient] iota.
    fold (mapM (fun i => c <- Storage.getClient (JsNumber.float_key (inv_clientId i)) ;;
                 ret (i, c)) r).
    rewrite IH. cbn [store calls map repeat List.length]. rewrite <- app_assoc. reflexivity.
Qed.

(** GET /api/clients and GET /api/invoices only read the store. They list
    exactly the requester's clients and invoices, in insertion order.
    Each invoice is paired with the client stored under its [clientId],
    whoever owns that client. *)
Theorem listing_routes_read_own_entries userId w :
  store (snd (Routes.getClients userId w)) = store w
  /\ fst (Routes.getClients userId w)
     = AJson 200 (PClients (filter (fun c => Z.eqb (cl_userId c) userId)
                              (JsMap.values (clients (store w)))))
  /\ store (snd (Routes.getInvoices userId w)) = store w
  /\ fst (Routes.getInvoices userId w)
     = AJson 200 (PInvoicesWithClient
         (map (fun i => (i, key_get (JsNumber.float_key (inv_clientId i)) (clients (store w))))
            (filter (fun i => Z.eqb (inv_userId i) userId) (JsMap.values (invoices (store w)))))).
Proof.
  unfold Routes.getClients, Routes.getInvoices.
  cbv beta delta [bind ret storage_op Storage.getClientsByUserId Storage.getInvoicesByUserId] iota.
  rewrite mapM_getClient_pairs. cbn [store fst snd]. repeat split; reflexivity.
Qed.

Ltac run_client :=
  cbv beta delta [bind ret storage_op Storage.getClient Storage.updateClient
                  Storage.deleteClient Storage.createClient] iota.

(** For a client stored under [id] that belongs to another user, GET, PUT
    and DELETE /api/clients/:id all answer 403. The PUT answer does not
    depend on the body, since ownership is checked before validation.
    None of them changes the store. *)
Theorem foreign_client_forbidden userId id body w c :
  key_get (JsNumber.float_key id) (clients (store w)) = Some c ->
  cl_userId c <> userId ->
  fst (Routes.getClientById userId id w) = AMessage 403 msg_client_forbidden
  /\ fst (Routes.updateClient userId id body w) = AMessage 403 msg_client_forbidden
  /\ fst (Routes.deleteClient userId id w) = AMessage 403 msg_client_forbidden
  /\ store (snd (Routes.getClientById userId id w)) = store w
  /\ store (snd (Routes.updateClient userId id body w)) = store w
  /\ store (snd (Routes.deleteClient userId id w)) = store w.
Proof.
  intros Hc Hu. unfold Routes.getClientById, Routes.updateClient, Routes.deleteClient.
  run_client. rewrite Hc. apply Z.eqb_neq in Hu. rewrite Hu. cbn. repeat split.
Qed.





(** For an id under which no client is stored, GET, PUT and DELETE
    /api/clients/:id answer 404 "Client not found", PUT for any body. The
    store is unchanged. *)
Theorem missing_client_not_found userId id body w :
  key_get (JsNumber.float_key id) (clients (store w)) = None ->
  fst (Routes.getClientById userId id w) = AMessage 404 msg_client_not_found
  /\ fst (Routes.updateClient userId id body w) = AMessage 404 msg_client_not_found
  /\ fst (Routes.deleteClient userId id w) = AMessage 404 msg_client_not_found
  /\ store (snd (Routes.getClientById userId id w)) = store w
  /\ store (snd (Routes.updateClient userId id body w)) = store w
  /\ store (snd (Routes.deleteClient userId id w)) = store w.
Proof.
  intros Hc. unfold Routes.getClientById, Routes.updateClient, Routes.deleteClient.
  run_client. rewrite Hc. cbn. repeat split.
Qed.


(** A POST /api/clients body that fails the client schema is answered 400
    before any storage call, so the world is unchanged. The same holds
    for PUT /api/clients/:id on a client of the requester, except that its
    [getClient] lookup is logged. *)
Theorem client_body_rejected userId now id body w l e :
  clientFormSchema body = Zod.Issues l ->
  Routes.createClient userId now body w = (AMessage 400 (fromZodError_message l), w)
  /\ (key_get (JsNumber.float_key id) (clients (store w)) = Some e ->
      cl_userId e = userId ->
      Routes.updateClient userId id body w
      = (AMessage 400 (fromZodError_message l),
         mkWorld (store w) (calls w ++ ["getClient"%string]))).
Proof.
  intros Hl. split.
  - unfold Routes.createClient. rewrite Hl. reflexivity.
  - intros He Hu. unfold Routes.updateClient. run_client. rewrite He.
    rewrite Hu, Z.eqb_refl. cbn [negb]. rewrite Hl. reflexivity.
Qed.


(** DELETE /api/clients/:id on a client of the requester answers 204 and
    removes only that client. The delete does not cascade: the invoices
    and line items, including those of the deleted client, are left as
    they were. *)
Theorem delete_client_spec userId id w e :
  key_get (JsNumber.float_key id) (clients (store w)) = Some e ->
  cl_userId e = userId ->
  exists z, JsNumber.float_key id = Some z
  /\ fst (Routes.deleteClient userId id w) = ANoContent
  /\ JsMap.get z (clients (store (snd (Routes.deleteClient userId id w)))) = None
  /\ (forall k, k <> z ->
      JsMap.get k (clients (store (snd (Routes.deleteClient userId id w))))
      = JsMap.get k (clients (store w)))
  /\ invoices (store (snd (Routes.deleteClient userId id w))) = invoices (store w)
  /\ lineItems (store (snd (Routes.deleteClient userId id w))) = lineItems (store w).
Proof.
  intros He Hu. pose proof (key_get_some _ _ _ He) as [z [Hz Hg]].
  exists z. unfold Routes.deleteClient. run_client. rewrite He, Hu, Z.eqb_refl.
  cbn [negb]. rewrite Hz.
  cbn [fst snd store clients invoices lineItems with_clients].
  repeat split; [apply get_delete|].
  intros k Hk. apply get_delete_other. exact Hk.
Qed.


Lemma length_filter_disjoint {A} (f g : A -> bool) (l : list A) :
  (forall x, f x = true -> g x = false) ->
  (List.length (filter f l) + List.length (filter g l) <= List.length l)%nat.
Proof.
  intros H. induction l as [|x r IH]; simpl; [lia|].
  destruct (f x) eqn:Ef; [rewrite (H x Ef)|destruct (g x)]; simpl; lia.
Qed.

(** GET /api/dashboard/stats only reads the store. [invoicesIssued] is
    the number of the requester's invoices. The pending and paid counts
    are counts of disjoint subsets of them, so together they never exceed
    [invoicesIssued]. [totalRevenue] is the double sum, in storage order
    and starting from [0], of the totals of the paid ones. *)
Theorem dashboard_stats_spec userId w :
  let invs := filter (fun i => Z.eqb (inv_userId i) userId) (JsMap.values (invoices (store w))) in
  store (snd (Routes.getDashboardStats userId w)) = store w
  /\ exists st, fst (Routes.getDashboardStats userId w) = AJson 200 (PStats st)
  /\ invoicesIssued st = Z.of_nat (List.length invs)
  /\ 0 <= pendingPayment st /\ 0 <= paid st
  /\ pendingPayment st + paid st <= invoicesIssued st
  /\ totalRevenue st
     = fold_left (fun sum i => (sum + inv_total i)%float)
         (filter (fun i => String.eqb (inv_status i) InvoiceStatus_PAID) invs) 0%float.
Proof.
  intros invs. unfold Routes.getDashboardStats.
  cbv beta delta [bind ret storage_op Storage.getDashboardStats] iota zeta.
  cbn [fst snd store]. split; [reflexivity|].
  eexists. split; [reflexivity|]. cbn [invoicesIssued pendingPayment paid totalRevenue].
  fold invs. repeat split; try lia.
  rewrite <- Nat2Z.inj_add. apply Nat2Z.inj_le. apply length_filter_disjoint.
  intros i Hi. apply String.eqb_eq in Hi. rewrite Hi. reflexivity.
Qed.

(** ** Other users' writes *)

Lemma filter_values_set_found {V} (P : V -> bool) z e v (m : JsMap.t V) :
  JsMap.get z m = Some e -> P e = false -> P v = false ->
  filter P (JsMap.values (JsMap.set z v m)) = filter P (JsMap.values m).
Proof.
  intros Hg He Hv. induction m as [|[k x] r IH]; simpl in Hg |- *; [discriminate|].
  destruct (Z.eqb_spec z k) as [->|Hne].
  - injection Hg as ->. unfold JsMap.values. simpl. rewrite He, Hv. reflexivity.
  - unfold JsMap.values in *. simpl. destruct (P x); rewrite (IH Hg); reflexivity.
Qed.

Lemma filter_values_set_fresh {V} (P : V -> bool) z v (m : JsMap.t V) :
  (forall p, In p m -> fst p < z) -> P v = false ->
  filter P (JsMap.values (JsMap.set z v m)) = filter P (JsMap.values m).
Proof.
  intros Hf Hv. rewrite set_fresh by exact Hf. unfold JsMap.values.
  rewrite map_app, filter_app. simpl. rewrite Hv, app_nil_r. reflexivity.
Qed.

Lemma delete_absent {V} k (m : JsMap.t V) :
  existsb (Z.eqb k) (map fst m) = false -> JsMap.delete k m = m.
Proof.
  unfold JsMap.delete. induction m as [|[k' x] r IH]; simpl; [reflexivity|].
  intros H. apply orb_false_iff in H as [H1 H2].
  rewrite Z.eqb_sym, H1. simpl. rewrite IH by exact H2. reflexivity.
Qed.

Lemma filter_values_delete {V} (P : V -> bool) z e (m : JsMap.t V) :
  nodup_keys m = true -> JsMap.get z m = Some e -> P e = false ->
  filter P (JsMap.values (JsMap.delete z m)) = filter P (JsMap.values m).
Proof.
  intros Hd Hg He. induction m as [|[k x] r IH]; simpl in Hg, Hd |- *; [discriminate|].
  apply andb_prop in Hd as [Hk Hd]. apply negb_true_iff in Hk.
  destruct (Z.eqb_spec z k) as [->|Hne].
  - injection Hg as ->. unfold JsMap.delete in *. simpl. rewrite Z.eqb_refl. simpl.
    fold (JsMap.delete k r). rewrite delete_absent by exact Hk.
    unfold JsMap.values. simpl. rewrite He. reflexivity.
  - unfold JsMap.delete in *. simpl.
    assert (Hkz : Z.eqb k z = false) by (apply Z.eqb_neq; congruence).
    rewrite Hkz. simpl. unfold JsMap.values in *. simpl.
    destruct (P x); rewrite (IH Hd Hg); reflexivity.
Qed.

Lemma wf_nodup_invoices s : wf_store s = true -> nodup_keys (invoices s) = true.
Proof.
  unfold wf_store, keys_ok. intros H. apply andb_prop in H as [H _].
  apply andb_prop in H as [_ H]. exact H.
Qed.


Ltac run_handler2 :=
  cbv beta delta [bind ret storage_op Storage.getInvoice Storage.getClient
                  Storage.updateInvoiceStatus Storage.updateInvoice
                  Storage.deleteInvoice Storage.deleteLineItemsByInvoiceId
                  Storage.getLineItemsByInvoiceId] iota.

Section OtherUser.
Variables u u' : Z.
Hypothesis Hne : u <> u'.

Let P := fun i => Z.eqb (inv_userId i) u.

Lemma P_other i : inv_userId i = u' -> P i = false.
Proof. intros H. unfold P. rewrite H. apply Z.eqb_neq. congruence. Qed.

Lemma create_view now body w :
  wf_store (store w) = true ->
  filter P (JsMap.values (invoices (store (snd (Routes.createInvoice u' now body w)))))
  = filter P (JsMap.values (invoices (store w))).
Proof.
  intros Hwf. destruct w as [st cs]. unfold Routes.createInvoice.
  destruct (invoiceFormSchema body) as [v|l]; [|reflexivity].
  run_handler2. unfold Storage.createInvoice, storage_op. cbn [store calls].
  destruct (negb _); [reflexivity|].
  cbv beta zeta iota delta [compute_totals].
  destruct (mapM _ _ _) as [ls w'] eqn:E.
  apply mapM_createLineItem_invoices in E.
  cbn [snd]. rewrite E. cbn [store invoices with_invoices].
  apply filter_values_set_fresh; [|apply P_other; reflexivity].
  intros p Hp. apply (wf_invoices st Hwf p Hp).
Qed.

Lemma update_view now id body w :
  filter P (JsMap.values (invoices (store (snd (Routes.updateInvoice u' now id body w)))))
  = filter P (JsMap.values (invoices (store w))).
Proof.
  destruct w as [st cs]. unfold Routes.updateInvoice.
  destruct (invoiceFormSchema body) as [v|l]; [|reflexivity].
  run_handler2. cbn [store calls].
  destruct (key_get (JsNumber.float_key id) (invoices st)) as [e|] eqn:Hg; [|reflexivity].
  destruct (negb (Z.eqb _ _)) eqn:Hown; [reflexivity|].
  apply negb_false_iff, Z.eqb_eq in Hown.
  destruct (negb (client_owned _ _)); [reflexivity|].
  cbv beta zeta iota delta [compute_totals]. cbn [store calls].
  destruct (JsNumber.float_key id) as [z|]; [|reflexivity].
  cbn [key_get] in Hg |- *. rewrite Hg.
  cbn [store calls with_lineItems with_invoices].
  destruct (mapM _ _ _) as [ls w'] eqn:E.
  apply mapM_createLineItem_invoices in E.
  cbn [snd]. rewrite E. cbn [store invoices].
  apply (filter_values_set_found _ _ e); [exact Hg|apply P_other; exact Hown|].
  apply P_other. exact Hown.
Qed.

Lemma status_view now id status w :
  filter P (JsMap.values (invoices (store (snd (Routes.updateInvoiceStatus u' now id status w)))))
  = filter P (JsMap.values (invoices (store w))).
Proof.
  destruct w as [st cs]. unfold Routes.updateInvoiceStatus.
  run_handler2. cbn [store calls].
  destruct (key_get (JsNumber.float_key id) (invoices st)) as [e|] eqn:Hg; [|reflexivity].
  destruct (negb (Z.eqb _ _)) eqn:Hown; [reflexivity|].
  apply negb_false_iff, Z.eqb_eq in Hown.
  destruct (Routes.valid_status status); [|reflexivity].
  cbn [store calls].
  destruct (JsNumber.float_key id) as [z|]; [|reflexivity].
  cbn [key_get] in Hg |- *. rewrite Hg.
  cbn [snd store invoices with_invoices].
  apply (filter_values_set_found _ _ e); [exact Hg|apply P_other; exact Hown|].
  apply P_other. exact Hown.
Qed.

Lemma delete_view id w :
  wf_store (store w) = true ->
  filter P (JsMap.values (invoices (store (snd (Routes.deleteInvoice u' id w)))))
  = filter P (JsMap.values (invoices (store w))).
Proof.
  intros Hwf. destruct w as [st cs]. unfold Routes.deleteInvoice.
  run_handler2. cbn [store calls].
  destruct (key_get (JsNumber.float_key id) (invoices st)) as [e|] eqn:Hg; [|reflexivity].
  destruct (negb (Z.eqb _ _)) eqn:Hown; [reflexivity|].
  apply negb_false_iff, Z.eqb_eq in Hown.
  cbn [store calls with_lineItems].
  destruct (JsNumber.float_key id) as [z|]; [|reflexivity].
  cbn [key_get] in Hg. cbn [snd store invoices with_invoices].
  apply (filter_values_delete _ _ e); [apply wf_nodup_invoices, Hwf|exact Hg|].
  apply P_other. exact Hown.
Qed.

End OtherUser.

Lemma view_getInvoicesByUserId u w w' :
  filter (fun i => Z.eqb (inv_userId i) u) (JsMap.values (invoices (store w')))
  = filter (fun i => Z.eqb (inv_userId i) u) (JsMap.values (invoices (store w))) ->
  fst (Storage.getInvoicesByUserId u w') = fst (Storage.getInvoicesByUserId u w)
  /\ fst (Storage.getDashboardStats u w') = fst (Storage.getDashboardStats u w).
Proof.
  intros H. unfold Storage.getInvoicesByUserId, Storage.getDashboardStats, storage_op.
  destruct w as [st cs], w' as [st' cs']. cbn [store fst] in H |- *.
  rewrite H. split; reflexivity.
Qed.

(** On a well-formed store, no write through the invoice routes by user
    [u'] changes what another user [u] sees. This covers create, update,
    status update and delete, whatever their outcome. [u]'s invoice list
    ([getInvoicesByUserId]) stays the same, and so does [u]'s dashboard
    ([getDashboardStats]). *)
Theorem other_users_writes_isolated u u' now id body status w :
  wf_store (store w) = true -> u <> u' ->
  let same w' := fst (Storage.getInvoicesByUserId u w') = fst (Storage.getInvoicesByUserId u w)
                 /\ fst (Storage.getDashboardStats u w') = fst (Storage.getDashboardStats u w) in
  same (snd (Routes.createInvoice u' now body w))
  /\ same (snd (Routes.updateInvoice u' now id body w))
  /\ same (snd (Routes.updateInvoiceStatus u' now id status w))
  /\ same (snd (Routes.deleteInvoice u' id w)).
Proof.
  intros Hwf Hne same. unfold same.
  refine (conj _ (conj _ (conj _ _))); apply view_getInvoicesByUserId.
  - apply create_view; assumption.
  - apply update_view; assumption.
  - apply status_view; assumption.
  - apply delete_view; assumption.
Qed.



Lemma delete_missing {V} k (m : JsMap.t V) :
  JsMap.get k m = None -> JsMap.delete k m = m.
Proof.
  unfold JsMap.delete. induction m as [|[k' x] r IH]; simpl; [reflexivity|].
  destruct (Z.eqb_spec k k') as [_|Hne]; [discriminate|].
  intros H. assert (Hk : Z.eqb k' k = false) by (apply Z.eqb_neq; congruence).
  rewrite Hk. simpl. rewrite IH by exact H. reflexivity.
Qed.

(** POST /api/create-payment-intent never writes the store.
    - A body without a truthy [invoiceId] is answered 400 with no call
      made.
    - A missing invoice gets 404 and another user's invoice 403. In both
      cases only the [getInvoice] lookup is logged, so Stripe is not
      called.
    - For the requester's own invoice, Stripe is called once after the
      lookup, with [amount = Math.round(total * 100)] and the invoice's
      id and number. A Stripe failure is answered 500. *)
Theorem payment_intent_spec to_number stripe userId body w :
  (match body_field "invoiceId"%string body with Some j => js_truthy j | None => false end = false ->
   Routes.createPaymentIntent to_number stripe userId body w
   = (AMessage 400 "Invoice ID is required"%string, w))
  /\ (forall j, body_field "invoiceId"%string body = Some j -> js_truthy j = true ->
      key_get (JsNumber.float_key (to_number j)) (invoices (store w)) = None ->
      Routes.createPaymentIntent to_number stripe userId body w
      = (AMessage 404 msg_not_found, mkWorld (store w) (calls w ++ ["getInvoice"%string])))
  /\ (forall j i, body_field "invoiceId"%string body = Some j -> js_truthy j = true ->
      key_get (JsNumber.float_key (to_number j)) (invoices (store w)) = Some i ->
      inv_userId i <> userId ->
      Routes.createPaymentIntent to_number stripe userId body w
      = (AMessage 403 msg_invoice_forbidden, mkWorld (store w) (calls w ++ ["getInvoice"%string])))
  /\ (forall j i, body_field "invoiceId"%string body = Some j -> js_truthy j = true ->
      key_get (JsNumber.float_key (to_number j)) (invoices (store w)) = Some i ->
      inv_userId i = userId ->
      Routes.createPaymentIntent to_number stripe userId body w
      = (match stripe (js_math_round (inv_total i * 100)%float)
                 (InvoiceNumber.js_int_toString (inv_id i)) (inv_invoiceNumber i) with
         | Some secret => AJson 200 (PClientSecret secret)
         | None => AMessage 500 "Failed to create payment intent"%string
         end,
         mkWorld (store w) (calls w ++ ["getInvoice"; "stripe.paymentIntents.create"]%string))).
Proof.
  unfold Routes.createPaymentIntent.
  cbv beta delta [bind ret storage_op Storage.getInvoice] iota.
  repeat split.
  - destruct (body_field "invoiceId" body) as [j|]; intros H; [rewrite H|]; reflexivity.
  - intros j Hj Ht Hg. rewrite Hj, Ht. cbn [negb]. rewrite Hg. reflexivity.
  - intros j i Hj Ht Hg Hu. rewrite Hj, Ht. cbn [negb]. rewrite Hg.
    apply Z.eqb_neq in Hu. rewrite Hu. reflexivity.
  - intros j i Hj Ht Hg Hu. rewrite Hj, Ht. cbn [negb]. rewrite Hg.
    rewrite Hu, Z.eqb_refl. cbn [negb store calls]. rewrite <- app_assoc. reflexivity.
Qed.

(** [updateLineItem] and [deleteLineItem] on an id with no stored item
    return [undefined] and [false], and leave the store as it was. *)
Theorem line_item_missing_untouched id p w :
  key_get id (lineItems (store w)) = None ->
  Storage.updateLineItem id p w = (None, mkWorld (store w) (calls w ++ ["updateLineItem"%string]))
  /\ Storage.deleteLineItem id w = (false, mkWorld (store w) (calls w ++ ["deleteLineItem"%string])).
Proof.
  intros H. unfold Storage.updateLineItem, Storage.deleteLineItem, storage_op.
  destruct id as [z|]; cbn [key_get] in H |- *; [|split; reflexivity].
  rewrite H. unfold JsMap.has. rewrite H, delete_missing by exact H.
  destruct w as [[c i l cc ci cl cn] cs]. split; reflexivity.
Qed.


(** ** Users *)

(** [createUser] stores the new user under the current counter and
    advances it, so [getUser] of that id gives the user back. The other
    ids are left as they were. *)
Theorem create_user_get_roundtrip d s :
  let '(u, s') := Users.createUser d s in
  u_id u = currentUserId s
  /\ Users.getUser (Some (currentUserId s)) s' = Some u
  /\ currentUserId s' = currentUserId s + 1
  /\ u_username u = iu_username d
  /\ (forall k, k <> currentUserId s -> Users.getUser (Some k) s' = Users.getUser (Some k) s).
Proof.
  unfold Users.createUser, Users.getUser. cbn [key_get users currentUserId u_id u_username].
  repeat split; [apply get_set_same|].
  intros k Hk. apply get_set_other. exact Hk.
Qed.

(** The constructor puts the sample user under id 1 but leaves
    [currentUserId] at 1. The first [createUser] therefore also gets id 1
    and replaces the sample user. After it the users map holds only the
    new user, and ["samwilson"] is no longer found unless the new user
    has that name. *)
Theorem first_user_overwrites_sample d :
  let '(u, s') := Users.createUser d Users.initial_users in
  u_id u = 1
  /\ users s' = [(1, u)]
  /\ Users.getUser (Some 1) s' = Some u
  /\ (iu_username d <> "samwilson"%string ->
      Users.getUserByUsername "samwilson" s' = None).
Proof.
  cbn. repeat split.
  intros Hn. destruct (String.eqb_spec (iu_username d) "samwilson"); [contradiction|reflexivity].
Qed.

Lemma find_app_some {A} (f : A -> bool) l1 l2 x :
  find f l1 = Some x -> find f (l1 ++ l2) = Some x.
Proof.
  induction l1 as [|y r IH]; simpl; [discriminate|].
  destruct (f y); [exact (fun H => H)|exact IH].
Qed.

(** [createUser] does not check that the username is free. On a store
    whose keys are below the counter, a user with a taken username is
    appended under a new id. [getUserByUsername] still returns the
    earlier user, and the new one is only found by id. *)
Theorem duplicate_username_accepted d s u0 :
  (forall p, In p (users s) -> fst p < currentUserId s) ->
  Users.getUserByUsername (iu_username d) s = Some u0 ->
  let '(u, s') := Users.createUser d s in
  users s' = users s ++ [(currentUserId s, u)]
  /\ Users.getUserByUsername (iu_username d) s' = Some u0
  /\ Users.getUser (Some (currentUserId s)) s' = Some u
  /\ u_username u = u_username u0.
Proof.
  intros Hf Hg. unfold Users.getUserByUsername in Hg.
  pose proof (find_some _ _ Hg) as [_ Hname]. apply String.eqb_eq in Hname.
  unfold Users.createUser, Users.getUserByUsername, Users.getUser. cbn [users key_get u_username].
  rewrite set_fresh by exact Hf. repeat split.
  - unfold JsMap.values in *. rewrite map_app. apply find_app_some. exact Hg.
  - rewrite <- set_fresh by exact Hf. apply get_set_same.
  - symmetry. exact Hname.
Qed.


Lemma ap_ok {A B} (f : Zod.result (A -> B)) a y :
  Zod.ap f a = Zod.Ok y -> exists g x, f = Zod.Ok g /\ a = Zod.Ok x /\ y = g x.
Proof. destruct f, a; simpl; try discriminate. intros H. injection H as <-. eauto. Qed.

Lemma run_checks_ok {A} (cs : list (Zod.check A)) x y :
  Zod.run_checks cs x = Zod.Ok y -> y = x /\ Forall (fun c => c x = None) cs.
Proof.
  unfold Zod.run_checks.
  destruct (flat_map (fun c => match c x with Some m => [m] | None => [] end) cs) eqn:E;
    [|discriminate]. intros H. injection H as <-.
  split; [reflexivity|]. apply Forall_forall. intros c Hc.
  destruct (c x) eqn:Ec; [|reflexivity].
  assert (Hin : In s (flat_map (fun c => match c x with Some m => [m] | None => [] end) cs)).
  { apply in_flat_map. exists c. rewrite Ec. split; [exact Hc|left; reflexivity]. }
  rewrite E in Hin. destruct Hin.
Qed.

Lemma invalid_type_not_ok {A} e j (y : A) : Zod.invalid_type e j <> Zod.Ok y.
Proof. destruct j; discriminate. Qed.

Lemma number_ok cs j x :
  Zod.number cs j = Zod.Ok x ->
  j = Some (JNum x) /\ PrimFloat.is_nan x = false /\ Forall (fun c => c x = None) cs.
Proof.
  unfold Zod.number. destruct j as [[| |y| | |]|]; intros H;
    try (apply invalid_type_not_ok in H; contradiction).
  destruct (PrimFloat.is_nan y) eqn:En; [apply invalid_type_not_ok in H; contradiction|].
  apply run_checks_ok in H as [-> Hc]. auto.
Qed.

Lemma str_ok cs j s :
  Zod.str cs j = Zod.Ok s -> j = Some (JStr s) /\ Forall (fun c => c s = None) cs.
Proof.
  unfold Zod.str. destruct j as [[| | |y| |]|]; intros H;
    try (apply invalid_type_not_ok in H; contradiction).
  apply run_checks_ok in H as [-> Hc]. auto.
Qed.

Lemma elements_ok {A} (p : option json -> Zod.result A) l r :
  Zod.elements p l = Zod.Ok r -> Forall2 (fun x a => p (Some x) = Zod.Ok a) l r.
Proof.
  revert r. induction l as [|x l IH]; intros r H; cbn [Zod.elements] in H.
  - injection H as <-. constructor.
  - apply ap_ok in H as (g & b & Hg & Hb & ->). apply ap_ok in Hg as (g0 & a & H0 & Ha & ->).
    injection H0 as <-. constructor; [exact Ha|apply IH, Hb].
Qed.

Lemma array_min_ok {A} (p : option json -> Zod.result A) n msg j r :
  Zod.array_min p n msg j = Zod.Ok r ->
  exists l, j = Some (JArr l) /\ (n <= List.length l)%nat
            /\ Forall2 (fun x a => p (Some x) = Zod.Ok a) l r.
Proof.
  unfold Zod.array_min. destruct j as [[| | | |l|]|]; intros H;
    try (apply invalid_type_not_ok in H; contradiction).
  exists l. split; [reflexivity|].
  destruct (List.length l <? n)%nat eqn:Hn.
  - destruct (Zod.elements p l); discriminate.
  - apply Nat.ltb_ge in Hn. split; [exact Hn|]. apply elements_ok, H.
Qed.

Lemma Forall2_Forall_r {A B} (R : A -> B -> Prop) (Q : B -> Prop) l r :
  (forall x a, R x a -> Q a) -> Forall2 R l r -> Forall Q r.
Proof. intros H H2. induction H2; constructor; eauto. Qed.

Ltac peel H :=
  match type of H with
  | Zod.ap _ _ = Zod.Ok _ =>
      let g := fresh "g" in let x := fresh "x" in
      let Hf := fresh "Hf" in let Hx := fresh "Hx" in
      apply ap_ok in H as (g & x & Hf & Hx & ->); peel Hf
  | Zod.Ok _ = Zod.Ok _ => injection H as <-
  end.

Lemma line_item_ok j it :
  lineItemSchema j = Zod.Ok it ->
  (1 <= String.length (fl_description it))%nat
  /\ PrimFloat.is_nan (fl_quantity it) = false /\ PrimFloat.ltb (fl_quantity it) 0.01 = false
  /\ PrimFloat.is_nan (fl_rate it) = false /\ PrimFloat.ltb (fl_rate it) 0 = false
  /\ PrimFloat.is_nan (fl_amount it) = false.
Proof.
  unfold lineItemSchema, Zod.obj. destruct j as [[| | | | |fs]|]; intros H;
    try (apply invalid_type_not_ok in H; contradiction).
  peel H. cbn [fl_description fl_quantity fl_rate fl_amount].
  apply number_ok in Hx as (_ & Ha & _).
  apply number_ok in Hx0 as (_ & Hr & Hrc).
  apply number_ok in Hx1 as (_ & Hq & Hqc).
  apply str_ok in Hx2 as (_ & Hd).
  inversion Hd as [|? ? Hd1 _]; subst. inversion Hqc as [|? ? Hq1 _]; subst.
  inversion Hrc as [|? ? Hr1 _]; subst.
  unfold Zod.str_min1 in Hd1. unfold Zod.num_min in Hq1, Hr1.
  destruct (String.length x2 <? 1)%nat eqn:Hl; [discriminate|]. apply Nat.ltb_ge in Hl.
  destruct (PrimFloat.ltb x1 0.01); [discriminate|].
  destruct (PrimFloat.ltb x0 0); [discriminate|].
  repeat split; assumption.
Qed.

(** What a body accepted by [invoiceFormSchema] guarantees about the
    form data:
    - the body is an object;
    - [clientId] and [taxRate] are numbers other than [NaN];
    - [taxRate] is neither below 0 nor above 100, and is 0 when absent;
    - there is at least one line item;
    - each item has a non-empty description, a quantity not below 0.01,
      a rate not below 0, and no [NaN] among its numbers. *)
Theorem invoice_form_schema_sound body v :
  invoiceFormSchema body = Zod.Ok v ->
  exists fs, body = Some (JObj fs)
  /\ PrimFloat.is_nan (f_clientId v) = false
  /\ PrimFloat.is_nan (f_taxRate v) = false
  /\ PrimFloat.ltb (f_taxRate v) 0 = false
  /\ PrimFloat.ltb 100 (f_taxRate v) = false
  /\ (field "taxRate" fs = None -> f_taxRate v = 0%float)
  /\ f_lineItems v <> []
  /\ Forall (fun it =>
       (1 <= String.length (fl_description it))%nat
       /\ PrimFloat.is_nan (fl_quantity it) = false /\ PrimFloat.ltb (fl_quantity it) 0.01 = false
       /\ PrimFloat.is_nan (fl_rate it) = false /\ PrimFloat.ltb (fl_rate it) 0 = false
       /\ PrimFloat.is_nan (fl_amount it) = false) (f_lineItems v).
Proof.
  unfold invoiceFormSchema, Zod.obj. destruct body as [[| | | | |fs]|]; intros H;
    try (apply invalid_type_not_ok in H; contradiction).
  exists fs. peel H. cbn [f_clientId f_taxRate f_lineItems].
  apply array_min_ok in Hx as (l & _ & Hlen & H2).
  assert (Htax : f_taxRate (mkInvoiceFormData x6 x5 x4 x3 x2 x1 x0 x) = x1) by reflexivity.
  unfold Zod.with_default in Hx1.
  assert (Hdef : field "taxRate" fs = None -> x1 = 0%float).
  { intros Hn. rewrite Hn in Hx1. apply number_ok in Hx1 as (Hj & _). congruence. }
  assert (Hx1' : exists j, Zod.number
     [Zod.num_min 0 "Number must be greater than or equal to 0";
      Zod.num_max 100 "Number must be less than or equal to 100"] j = Zod.Ok x1).
  { destruct (field "taxRate" fs); eauto. }
  destruct Hx1' as [j Hj]. apply number_ok in Hj as (_ & Hn & Hc).
  inversion Hc as [|? ? Hc1 Hc2]; subst. inversion Hc2 as [|? ? Hc3 _]; subst.
  unfold Zod.num_min, Zod.num_max in Hc1, Hc3.
  apply number_ok in Hx6 as (_ & Hcl & _).
  split; [reflexivity|]. split; [exact Hcl|]. split; [exact Hn|].
  split; [destruct (PrimFloat.ltb x1 0); [discriminate|reflexivity]|].
  split; [destruct (PrimFloat.ltb 100 x1); [discriminate|reflexivity]|].
  split; [exact Hdef|]. split.
  - intros ->. inversion H2; subst. simpl in Hlen. lia.
  - eapply Forall2_Forall_r; [|exact H2]. intros y a Ha. apply (line_item_ok _ _ Ha).
Qed.



Lemma mapM_createLineItem_frame z (l : list FormLineItem) :
  forall w ls w',
    mapM (fun item => Storage.createLineItem (line_item_of z item)) l w = (ls, w') ->
    clients (store w') = clients (store w) /\ invoices (store w') = invoices (store w)
    /\ currentInvoiceId (store w') = currentInvoiceId (store w)
    /\ currentInvoiceNumber (store w') = currentInvoiceNumber (store w).
Proof.
  induction l as [|it r IH]; intros w ls w' E; cbn [mapM] in E.
  - injection E as _ <-. repeat split.
  - destruct w as [st cs]. rewrite bind_apply, createLineItem_apply in E.
    cbv beta iota in E. rewrite bind_apply in E.
    destruct (mapM _ r _) as [ls2 w2] eqn:E2.
    injection E as _ <-. apply IH in E2. exact E2.
Qed.

(** A successful create: the stored invoice, with the body's number, under
    the id [currentInvoiceId]. *)
Lemma create_success userId now body w v c :
  invoiceFormSchema body = Zod.Ok v ->
  key_get (JsNumber.float_key (f_clientId v)) (clients (store w)) = Some c ->
  cl_userId c = userId ->
  exists inv ls,
    fst (Routes.createInvoice userId now body w) = RJson 201 (PInvoiceLines (Some inv) ls)
    /\ inv_id inv = currentInvoiceId (store w)
    /\ inv_userId inv = userId
    /\ inv_clientId inv = f_clientId v
    /\ inv_invoiceNumber inv = f_invoiceNumber v
    /\ invoices (store (snd (Routes.createInvoice userId now body w)))
       = JsMap.set (inv_id inv) inv (invoices (store w))
    /\ clients (store (snd (Routes.createInvoice userId now body w))) = clients (store w)
    /\ currentInvoiceId (store (snd (Routes.createInvoice userId now body w)))
       = currentInvoiceId (store w) + 1
    /\ currentInvoiceNumber (store (snd (Routes.createInvoice userId now body w)))
       = currentInvoiceNumber (store w).
Proof.
  intros Hv Hc Hu. destruct w as [st cs]. cbn [store] in Hc |- *.
  unfold Routes.createInvoice. rewrite Hv.
  cbv beta delta [bind ret storage_op Storage.getClient] iota. cbn [store calls].
  rewrite Hc. unfold client_owned. rewrite Hu, Z.eqb_refl. cbn [negb].
  destruct (compute_totals (f_lineItems v) (f_taxRate v)) as [[sub tax] tot].
  unfold Storage.createInvoice, storage_op. cbn [store calls].
  match goal with |- context [mapM ?f ?l ?w1] =>
    destruct (mapM f l w1) as [ls w3] eqn:E end.
  apply mapM_createLineItem_frame in E as (Hcl & Hinv & Hid & Hnum).
  cbn [store clients invoices currentInvoiceId currentInvoiceNumber with_invoices]
    in Hcl, Hinv, Hid, Hnum.
  eexists; exists ls. cbn [fst snd].
  repeat split; [exact Hinv|exact Hcl|exact Hid|exact Hnum].
Qed.

(** POST /api/invoices stores the [invoiceNumber] of the body as given.
    It neither checks it against the stored invoices nor draws it from
    the invoice-number counter, which it leaves unchanged. Posting the
    same valid body twice therefore stores two invoices with the same
    number under consecutive ids. *)
Theorem duplicate_invoice_numbers_accepted userId now now' body w v c :
  invoiceFormSchema body = Zod.Ok v ->
  key_get (JsNumber.float_key (f_clientId v)) (clients (store w)) = Some c ->
  cl_userId c = userId ->
  let w1 := snd (Routes.createInvoice userId now body w) in
  let w2 := snd (Routes.createInvoice userId now' body w1) in
  exists i1 l1 i2 l2,
    fst (Routes.createInvoice userId now body w) = RJson 201 (PInvoiceLines (Some i1) l1)
    /\ fst (Routes.createInvoice userId now' body w1) = RJson 201 (PInvoiceLines (Some i2) l2)
    /\ inv_invoiceNumber i1 = f_invoiceNumber v
    /\ inv_invoiceNumber i2 = f_invoiceNumber v
    /\ inv_id i2 = inv_id i1 + 1
    /\ JsMap.get (inv_id i1) (invoices (store w2)) = Some i1
    /\ JsMap.get (inv_id i2) (invoices (store w2)) = Some i2
    /\ currentInvoiceNumber (store w2) = currentInvoiceNumber (store w).
Proof.
  intros Hv Hc Hu w1 w2.
  destruct (create_success userId now body w v c Hv Hc Hu)
    as (i1 & l1 & R1 & Id1 & _ & _ & N1 & Inv1 & Cl1 & Cid1 & Num1).
  fold w1 in Inv1, Cl1, Cid1, Num1.
  assert (Hc1 : key_get (JsNumber.float_key (f_clientId v)) (clients (store w1)) = Some c)
    by (rewrite Cl1; exact Hc).
  destruct (create_success userId now' body w1 v c Hv Hc1 Hu)
    as (i2 & l2 & R2 & Id2 & _ & _ & N2 & Inv2 & _ & _ & Num2).
  fold w2 in Inv2, Num2.
  exists i1, l1, i2, l2. repeat split; try assumption.
  - lia.
  - rewrite Inv2, get_set_other by lia. rewrite Inv1. apply get_set_same.
  - rewrite Inv2. apply get_set_same.
  - congruence.
Qed.

(** On a well-formed store where no stored line item already refers to
    the id the new invoice gets, a successful POST /api/invoices can be
    read back. GET /api/invoices/:id of the new id, by the same user,
    answers 200 with the created invoice, its client and exactly the
    created line items. *)
Theorem create_then_fetch_roundtrip userId now body w v c fid :
  wf_store (store w) = true ->
  (forall p, In p (lineItems (store w)) -> li_invoiceId (snd p) <> currentInvoiceId (store w)) ->
  invoiceFormSchema body = Zod.Ok v ->
  key_get (JsNumber.float_key (f_clientId v)) (clients (store w)) = Some c ->
  cl_userId c = userId ->
  JsNumber.float_key fid = Some (currentInvoiceId (store w)) ->
  exists inv ls,
    fst (Routes.createInvoice userId now body w) = RJson 201 (PInvoiceLines (Some inv) ls)
    /\ inv_id inv = currentInvoiceId (store w)
    /\ fst (Routes.getInvoiceById userId fid (snd (Routes.createInvoice userId now body w)))
       = RJson 200 (PInvoiceDetail inv (Some c) ls).
Proof.
  intros Hwf Hnone Hv Hc Hu Hfid.
  pose proof (wf_lineItems _ Hwf) as Hli.
  destruct w as [st cs]. cbn [store] in Hnone, Hc, Hfid, Hli |- *.
  unfold Routes.createInvoice. rewrite Hv.
  cbv beta delta [bind ret storage_op Storage.getClient] iota. cbn [store calls].
  rewrite Hc. unfold client_owned. rewrite Hu, Z.eqb_refl. cbn [negb].
  destruct (compute_totals (f_lineItems v) (f_taxRate v)) as [[sub tax] tot].
  unfold Storage.createInvoice, storage_op. cbn [store calls inv_id].
  match goal with |- context [mapM ?f ?l ?w1] =>
    pose proof (create_line_items_spec (currentInvoiceId st) (f_lineItems v) w1) as Hs;
    destruct (mapM f l w1) as [ls w3] eqn:E end.
  cbv zeta in Hs.
  destruct Hs as (Hls & Hl3 & Hinv & Hcl & _).
  { cbn [store lineItems with_invoices currentLineItemId]. intros p Hp. apply (Hli p Hp). }
  cbn [store lineItems invoices clients with_invoices currentLineItemId] in Hls, Hl3, Hinv, Hcl.
  eexists; exists ls. cbn [fst snd]. split; [reflexivity|]. split; [reflexivity|].
  unfold Routes.getInvoiceById. run_handler. destruct w3 as [st3 cs3].
  cbn [store calls inv_id inv_userId inv_clientId] in Hl3, Hinv, Hcl |- *.
  rewrite Hfid. cbn [key_get]. rewrite Hinv, get_set_same. rewrite Z.eqb_refl. cbn [negb].
  cbn [fst store calls inv_id inv_clientId ii_clientId clients lineItems].
  rewrite Hcl, Hc. f_equal. f_equal.
  rewrite Hl3. unfold JsMap.values. rewrite map_app, filter_app, map_map. cbn [snd key_is].
  rewrite map_id.
  rewrite (filter_values_none _ _ Hnone). cbn [app]. rewrite Hls.
  apply filter_new_items.
Qed.


Lemma str_app_assoc (a b c : string) : ((a ++ b) ++ c = a ++ (b ++ c))%string.
Proof. induction a as [|x a IH]; simpl; [reflexivity|rewrite IH; reflexivity]. Qed.

Lemma str_app_nil_r (a : string) : (a ++ EmptyString)%string = a.
Proof. induction a as [|x a IH]; simpl; [reflexivity|rewrite IH; reflexivity]. Qed.

Lemma csv_dec_escape (x rest : string) cell row rows :
  csv_dec (escape_quotes x ++ rest) InCell cell row rows
  = csv_dec rest InCell (rev (list_ascii_of_string x) ++ cell) row rows.
Proof.
  revert cell. induction x as [|a x IH]; intros cell; [reflexivity|].
  cbn [escape_quotes list_ascii_of_string rev].
  destruct (Ascii.eqb_spec a dq) as [->|Hne].
  - cbn [append csv_dec]. rewrite !(Ascii.eqb_refl dq).
    rewrite IH, <- app_assoc. reflexivity.
  - cbn [append csv_dec]. apply Ascii.eqb_neq in Hne. rewrite Hne.
    rewrite IH, <- app_assoc. reflexivity.
Qed.

Lemma csv_dec_cell (x rest : string) row rows :
  csv_dec (quote_cell x ++ rest) CellStart [] row rows
  = csv_dec rest AfterQuote (rev (list_ascii_of_string x)) row rows.
Proof.
  unfold quote_cell. cbn [append csv_dec]. rewrite (Ascii.eqb_refl dq).
  rewrite str_app_assoc. cbn [append]. rewrite csv_dec_escape, app_nil_r.
  cbn [csv_dec]. rewrite (Ascii.eqb_refl dq). reflexivity.
Qed.

Lemma cell_back (x : string) : string_of_list_ascii (rev (rev (list_ascii_of_string x))) = x.
Proof. rewrite rev_involutive. apply string_of_list_ascii_of_string. Qed.

Lemma comma_not_dq : Ascii.eqb comma dq = false.
Proof. reflexivity. Qed.
Lemma nl_not_dq : Ascii.eqb nl dq = false.
Proof. reflexivity. Qed.
Lemma nl_not_comma : Ascii.eqb nl comma = false.
Proof. reflexivity. Qed.

Lemma csv_dec_row (r : list string) : r <> [] ->
  forall acc rows,
  (forall rest,
    csv_dec (data_line r ++ String nl rest) CellStart [] acc rows
    = csv_dec rest CellStart [] [] ((rev acc ++ r) :: rows))
  /\ csv_dec (data_line r) CellStart [] acc rows = Some (rev ((rev acc ++ r) :: rows)).
Proof.
  unfold data_line. induction r as [|x r IH]; intros Hr acc rows; [contradiction|].
  destruct r as [|y r].
  - cbn [map js_join]. split.
    + intros rest. rewrite csv_dec_cell. cbn [csv_dec].
      rewrite nl_not_dq, nl_not_comma, (Ascii.eqb_refl nl). rewrite cell_back. reflexivity.
    + rewrite <- (str_app_nil_r (quote_cell x)), csv_dec_cell. cbn [csv_dec].
      rewrite cell_back. reflexivity.
  - assert (Hyr : y :: r <> []) by discriminate.
    change (js_join ","%string (map quote_cell (x :: y :: r)))
      with (quote_cell x ++ String comma (js_join ","%string (map quote_cell (y :: r))))%string.
    split.
    + intros rest. rewrite str_app_assoc. cbn [append]. rewrite csv_dec_cell. cbn [csv_dec].
      rewrite comma_not_dq, (Ascii.eqb_refl comma). rewrite cell_back.
      destruct (IH Hyr (x :: acc) rows) as [H _]. rewrite H.
      cbn [rev]. rewrite <- app_assoc. reflexivity.
    + rewrite <- (str_app_nil_r (quote_cell x ++ _)%string), str_app_assoc.
      cbn [append]. rewrite csv_dec_cell. cbn [csv_dec].
      rewrite comma_not_dq, (Ascii.eqb_refl comma). rewrite cell_back, str_app_nil_r.
      destruct (IH Hyr (x :: acc) rows) as [_ H]. rewrite H.
      cbn [rev]. rewrite <- app_assoc. reflexivity.
Qed.

Lemma csv_dec_lines (L : list (list string)) rows :
  L <> [] -> Forall (fun r => r <> []) L ->
  csv_dec (js_join (String nl EmptyString) (map data_line L)) CellStart [] [] rows
  = Some (rev rows ++ L).
Proof.
  revert rows. induction L as [|r L IH]; intros rows HL HF; [contradiction|].
  inversion HF as [|? ? Hr HF']; subst.
  destruct L as [|r2 L].
  - cbn [map js_join]. destruct (csv_dec_row r Hr [] rows) as [_ H]. rewrite H.
    reflexivity.
  - change (js_join (String nl EmptyString) (map data_line (r :: r2 :: L)))
      with (data_line r ++ String nl (js_join (String nl EmptyString) (map data_line (r2 :: L))))%string.
    destruct (csv_dec_row r Hr [] rows) as [H _]. rewrite H. cbn [rev app].
    rewrite IH by (discriminate || exact HF'). cbn [rev]. rewrite <- app_assoc. reflexivity.
Qed.

Lemma header_line_quoted : header_line = data_line csv_headers.
Proof. reflexivity. Qed.

Lemma item_rows_length num_toString formatDate inv cl k items :
  List.length (item_rows num_toString formatDate inv cl k items) = List.length items.
Proof. revert k. induction items as [|it r IH]; intros k; simpl; [reflexivity|rewrite IH; reflexivity]. Qed.

Lemma item_rows_nth num_toString formatDate inv cl k items j :
  nth_error (item_rows num_toString formatDate inv cl k items) j
  = option_map (item_row num_toString formatDate inv cl (k + j)) (nth_error items j).
Proof.
  revert k j. induction items as [|it r IH]; intros k j; [destruct j; reflexivity|].
  destruct j as [|j]; cbn [item_rows nth_error].
  - rewrite Nat.add_0_r. reflexivity.
  - rewrite IH. f_equal. f_equal. lia.
Qed.

Lemma item_rows_width num_toString formatDate inv cl k items :
  Forall (fun r => List.length r = List.length csv_headers)
    (item_rows num_toString formatDate inv cl k items).
Proof.
  revert k. induction items as [|it r IH]; intros k; constructor; [reflexivity|apply IH].
Qed.

Lemma csv_rows_width num_toString formatDate inv cl items :
  Forall (fun r => List.length r = List.length csv_headers)
    (csv_rows num_toString formatDate inv cl items).
Proof.
  unfold csv_rows. apply Forall_app. split; [apply item_rows_width|].
  destruct (Nat.eqb _ 0); constructor; [reflexivity|constructor].
Qed.

(** The rows [generateCSV] writes under its 16 headers:
    - there is one row per line item, or a single row when there is
      none;
    - every row has one cell per header;
    - the subtotal, tax rate, tax amount, total and notes cells are
      filled in the first row only and are empty in every later row;
    - the k-th row with items carries the k-th item's description,
      quantity, rate and amount. *)
Theorem csv_rows_shape num_toString formatDate inv cl items :
  let rows := csv_rows num_toString formatDate inv cl items in
  List.length rows = Nat.max 1 (List.length items)
  /\ Forall (fun r => List.length r = List.length csv_headers) rows
  /\ (exists r, nth_error rows 0 = Some r
        /\ skipn 11 r = [num_toString (inv_subtotal inv); num_toString (inv_taxRate inv);
                         num_toString (inv_taxAmount inv); num_toString (inv_total inv);
                         inv_notes inv])
  /\ (forall k r, nth_error rows (S k) = Some r -> skipn 11 r = [""; ""; ""; ""; ""]%string)
  /\ (forall k it, nth_error items k = Some it ->
      exists r, nth_error rows k = Some r
        /\ firstn 4 (skipn 7 r) = [li_description it; num_toString (li_quantity it);
                                   num_toString (li_rate it); num_toString (li_amount it)]).
Proof.
  intros rows. unfold rows, csv_rows.
  destruct items as [|it0 items'].
  - cbn [item_rows List.length Nat.eqb app]. split; [reflexivity|].
    split; [constructor; [reflexivity|constructor]|].
    split; [eexists; split; reflexivity|].
    split; [intros [|k] r H; discriminate|].
    intros [|k] it H; discriminate.
  - cbn [List.length Nat.eqb]. rewrite app_nil_r.
    split; [rewrite item_rows_length; simpl; lia|].
    split; [apply item_rows_width|].
    split; [|split].
    + rewrite item_rows_nth. cbn. eexists. split; reflexivity.
    + intros k r H. rewrite item_rows_nth in H.
      destruct (nth_error (it0 :: items') (S k)); [|discriminate].
      cbn in H. injection H as <-. reflexivity.
    + intros k it H. rewrite item_rows_nth, H. cbn [option_map].
      eexists. split; reflexivity.
Qed.

(** The file [generateCSV] writes reads back: parsing its text as CSV,
    with quoted fields and doubled quotes, gives the header row followed
    by the data rows. Cell contents may hold quotes, commas or line
    breaks; the escaping keeps them intact. *)
Theorem csv_content_roundtrip num_toString formatDate inv cl items :
  csv_parse (csvContent num_toString formatDate inv cl items)
  = Some (csv_headers :: csv_rows num_toString formatDate inv cl items).
Proof.
  unfold csv_parse, csvContent. rewrite header_line_quoted.
  change (data_line csv_headers :: map data_line (csv_rows num_toString formatDate inv cl items))
    with (map data_line (csv_headers :: csv_rows num_toString formatDate inv cl items)).
  rewrite csv_dec_lines; [reflexivity|discriminate|].
  constructor; [discriminate|].
  eapply Forall_impl; [|apply csv_rows_width].
  intros r Hr Hn. rewrite Hn in Hr. discriminate.
Qed.

(** ** Witnesses *)

Lemma foreign_client_forbidden_witness :
  key_get (JsNumber.float_key 1%float) (clients (store (Sample.initial_world 0)))
  = Some (Sample.client 1 "Acme Corp" "contact@acmecorp.com"
            "100 Market St, San Francisco, CA 94103" "415-555-2345"
            "Acme Corporation" "John Doe" 0)%string
  /\ cl_userId (Sample.client 1 "Acme Corp" "contact@acmecorp.com"
            "100 Market St, San Francisco, CA 94103" "415-555-2345"
            "Acme Corporation" "John Doe" 0)%string <> 2
  /\ fst (Routes.updateClient 2 1%float None (Sample.initial_world 0))
     = AMessage 403 msg_client_forbidden.
Proof.
  assert (h1 : key_get (JsNumber.float_key 1%float) (clients (store (Sample.initial_world 0)))
    = Some (Sample.client 1 "Acme Corp" "contact@acmecorp.com"
            "100 Market St, San Francisco, CA 94103" "415-555-2345"
            "Acme Corporation" "John Doe" 0)%string) by (vm_compute; reflexivity).
  assert (h2 : cl_userId (Sample.client 1 "Acme Corp" "contact@acmecorp.com"
            "100 Market St, San Francisco, CA 94103" "415-555-2345"
            "Acme Corporation" "John Doe" 0)%string <> 2) by (cbn; lia).
  exact (conj h1 (conj h2 (proj1 (proj2
    (foreign_client_forbidden 2 1%float None (Sample.initial_world 0) _ h1 h2))))).
Defined.

Lemma missing_client_not_found_witness :
  key_get (JsNumber.float_key 99%float) (clients (store (Sample.initial_world 0))) = None
  /\ fst (Routes.deleteClient 1 99%float (Sample.initial_world 0)) = AMessage 404 msg_client_not_found.
Proof.
  assert (h : key_get (JsNumber.float_key 99%float) (clients (store (Sample.initial_world 0))) = None)
    by (vm_compute; reflexivity).
  exact (conj h (proj1 (proj2 (proj2
    (missing_client_not_found 1 99%float None (Sample.initial_world 0) h))))).
Defined.


Lemma client_body_rejected_witness :
  clientFormSchema None = Zod.Issues ["Required"%string]
  /\ Routes.updateClient 1 1%float None (Sample.initial_world 0)
     = (AMessage 400 (fromZodError_message ["Required"%string]),
        mkWorld (store (Sample.initial_world 0)) ["getClient"%string]).
Proof.
  assert (h1 : clientFormSchema None = Zod.Issues ["Required"%string]) by (vm_compute; reflexivity).
  assert (h2 : key_get (JsNumber.float_key 1%float) (clients (store (Sample.initial_world 0)))
    = Some (Sample.client 1 "Acme Corp" "contact@acmecorp.com"
            "100 Market St, San Francisco, CA 94103" "415-555-2345"
            "Acme Corporation" "John Doe" 0)%string) by (vm_compute; reflexivity).
  exact (conj h1 (proj2 (client_body_rejected 1 0 1%float None (Sample.initial_world 0) _ _ h1)
                   h2 eq_refl)).
Defined.


Lemma delete_client_spec_witness :
  key_get (JsNumber.float_key 1%float) (clients (store (Sample.initial_world 0)))
  = Some (Sample.client 1 "Acme Corp" "contact@acmecorp.com"
            "100 Market St, San Francisco, CA 94103" "415-555-2345"
            "Acme Corporation" "John Doe" 0)%string
  /\ fst (Routes.deleteClient 1 1%float (Sample.initial_world 0)) = ANoContent.
Proof.
  assert (h1 : key_get (JsNumber.float_key 1%float) (clients (store (Sample.initial_world 0)))
    = Some (Sample.client 1 "Acme Corp" "contact@acmecorp.com"
            "100 Market St, San Francisco, CA 94103" "415-555-2345"
            "Acme Corporation" "John Doe" 0)%string) by (vm_compute; reflexivity).
  destruct (delete_client_spec 1 1%float (Sample.initial_world 0) _ h1 eq_refl) as [z [_ [Hr _]]].
  exact (conj h1 Hr).
Defined.

Lemma other_users_writes_isolated_witness :
  wf_store (store (Sample.initial_world 0)) = true /\ (2 <> 1)
  /\ fst (Storage.getDashboardStats 2 (snd (Routes.deleteInvoice 1 1%float (Sample.initial_world 0))))
     = fst (Storage.getDashboardStats 2 (Sample.initial_world 0)).
Proof.
  assert (h1 : wf_store (store (Sample.initial_world 0)) = true) by (vm_compute; reflexivity).
  assert (h2 : 2 <> 1) by lia.
  destruct (other_users_writes_isolated 2 1 0 1%float (one_item_body 12.5%float 1%float)
              (Some (JStr "paid"%string)) (Sample.initial_world 0) h1 h2) as [_ [_ [_ [_ Hd]]]].
  exact (conj h1 (conj h2 Hd)).
Defined.

Lemma line_item_missing_untouched_witness :
  key_get (Some 99) (lineItems (store (Sample.initial_world 0))) = None
  /\ Storage.deleteLineItem (Some 99) (Sample.initial_world 0)
     = (false, mkWorld (store (Sample.initial_world 0)) ["deleteLineItem"%string]).
Proof.
  assert (h : key_get (Some 99) (lineItems (store (Sample.initial_world 0))) = None)
    by (vm_compute; reflexivity).
  exact (conj h (proj2 (line_item_missing_untouched (Some 99)
    (mkLineItemPatch None None None None None) (Sample.initial_world 0) h))).
Defined.


Lemma duplicate_username_accepted_witness :
  (forall p, In p (users (mkUserStore [(1, Users.sampleUser)] 2)) -> fst p < 2)
  /\ Users.getUserByUsername "samwilson" (mkUserStore [(1, Users.sampleUser)] 2)
     = Some Users.sampleUser
  /\ Users.getUserByUsername "samwilson"
       (snd (Users.createUser (mkInsertUser "samwilson" "pw" "Sam Two" "two@example.com"
               None None None None) (mkUserStore [(1, Users.sampleUser)] 2)))%string
     = Some Users.sampleUser.
Proof.
  assert (h1 : forall p, In p (users (mkUserStore [(1, Users.sampleUser)] 2)) -> fst p < 2).
  { intros p [<-|[]]. cbn. lia. }
  assert (h2 : Users.getUserByUsername "samwilson" (mkUserStore [(1, Users.sampleUser)] 2)
     = Some Users.sampleUser) by (vm_compute; reflexivity).
  pose proof (duplicate_username_accepted
    (mkInsertUser "samwilson" "pw" "Sam Two" "two@example.com" None None None None)%string
    (mkUserStore [(1, Users.sampleUser)] 2) Users.sampleUser h1 h2) as H.
  cbn [Users.createUser] in H. cbn [snd]. destruct H as [_ [H _]].
  exact (conj h1 (conj h2 H)).
Defined.

Lemma invoice_form_schema_sound_witness :
  invoiceFormSchema (one_item_body 12.5%float 1%float) = Zod.Ok (one_item_form 12.5%float 1%float)
  /\ f_lineItems (one_item_form 12.5%float 1%float) <> [].
Proof.
  assert (h : invoiceFormSchema (one_item_body 12.5%float 1%float)
    = Zod.Ok (one_item_form 12.5%float 1%float)) by (vm_compute; reflexivity).
  destruct (invoice_form_schema_sound _ _ h) as [fs [_ [_ [_ [_ [_ [_ [Hne _]]]]]]]].
  exact (conj h Hne).
Defined.

Lemma duplicate_invoice_numbers_accepted_witness :
  invoiceFormSchema (one_item_body 12.5%float 1%float) = Zod.Ok (one_item_form 12.5%float 1%float)
  /\ key_get (JsNumber.float_key (f_clientId (one_item_form 12.5%float 1%float)))
       (clients (store (Sample.initial_world 0)))
     = Some (Sample.client 1 "Acme Corp" "contact@acmecorp.com"
            "100 Market St, San Francisco, CA 94103" "415-555-2345"
            "Acme Corporation" "John Doe" 0)%string
  /\ exists i1 l1 i2 l2,
    fst (Routes.createInvoice 1 0 (one_item_body 12.5%float 1%float) (Sample.initial_world 0))
    = RJson 201 (PInvoiceLines (Some i1) l1)
    /\ fst (Routes.createInvoice 1 1 (one_item_body 12.5%float 1%float)
              (snd (Routes.createInvoice 1 0 (one_item_body 12.5%float 1%float) (Sample.initial_world 0))))
       = RJson 201 (PInvoiceLines (Some i2) l2)
    /\ inv_invoiceNumber i1 = inv_invoiceNumber i2.
Proof.
  assert (h1 : invoiceFormSchema (one_item_body 12.5%float 1%float)
    = Zod.Ok (one_item_form 12.5%float 1%float)) by (vm_compute; reflexivity).
  assert (h2 : key_get (JsNumber.float_key (f_clientId (one_item_form 12.5%float 1%float)))
       (clients (store (Sample.initial_world 0)))
     = Some (Sample.client 1 "Acme Corp" "contact@acmecorp.com"
            "100 Market St, San Francisco, CA 94103" "415-555-2345"
            "Acme Corporation" "John Doe" 0)%string) by (vm_compute; reflexivity).
  destruct (duplicate_invoice_numbers_accepted 1 0 1 _ (Sample.initial_world 0) _ _ h1 h2 eq_refl)
    as [i1 [l1 [i2 [l2 [E1 [E2 [N1 [N2 _]]]]]]]].
  refine (conj h1 (conj h2 (ex_intro _ i1 (ex_intro _ l1 (ex_intro _ i2 (ex_intro _ l2
    (conj E1 (conj E2 _)))))))).
  rewrite N1, N2. reflexivity.
Defined.

Lemma create_then_fetch_roundtrip_witness :
  wf_store (store (Sample.initial_world 0)) = true
  /\ JsNumber.float_key 5%float = Some (currentInvoiceId (store (Sample.initial_world 0)))
  /\ exists inv ls,
    fst (Routes.getInvoiceById 1 5%float
           (snd (Routes.createInvoice 1 0 (one_item_body 12.5%float 1%float) (Sample.initial_world 0))))
    = RJson 200 (PInvoiceDetail inv
        (Some (Sample.client 1 "Acme Corp" "contact@acmecorp.com"
            "100 Market St, San Francisco, CA 94103" "415-555-2345"
            "Acme Corporation" "John Doe" 0)%string) ls)
    /\ inv_id inv = 5.
Proof.
  assert (h1 : wf_store (store (Sample.initial_world 0)) = true) by (vm_compute; reflexivity).
  assert (h2 : forall p, In p (lineItems (store (Sample.initial_world 0))) ->
                 li_invoiceId (snd p) <> currentInvoiceId (store (Sample.initial_world 0))).
  { intros p Hp. cbn in Hp. repeat destruct Hp as [<-|Hp]; cbn; try lia. }
  assert (h3 : invoiceFormSchema (one_item_body 12.5%float 1%float)
    = Zod.Ok (one_item_form 12.5%float 1%float)) by (vm_compute; reflexivity).
  assert (h4 : key_get (JsNumber.float_key (f_clientId (one_item_form 12.5%float 1%float)))
       (clients (store (Sample.initial_world 0)))
     = Some (Sample.client 1 "Acme Corp" "contact@acmecorp.com"
            "100 Market St, San Francisco, CA 94103" "415-555-2345"
            "Acme Corporation" "John Doe" 0)%string) by (vm_compute; reflexivity).
  assert (h6 : JsNumber.float_key 5%float = Some (currentInvoiceId (store (Sample.initial_world 0))))
    by (vm_compute; reflexivity).
  destruct (create_then_fetch_roundtrip 1 0 _ (Sample.initial_world 0) _ _ 5%float
              h1 h2 h3 h4 eq_refl h6) as [inv [ls [_ [Hid Hf]]]].
  exact (conj h1 (conj h6 (ex_intro _ inv (ex_intro _ ls (conj Hf Hid))))).
Defined.
